(** * west_9p: the [9p-serve] and [9p-run] west extension commands

    A shallow embedding of [scripts/west_9p.py].  The two [do_run] methods
    are sequences of calls into the operating system (filesystem probes,
    [os.system], [subprocess.Popen], [subprocess.run], [time.sleep],
    signals).  They are embedded in a state-and-exception monad: the state
    holds the filesystem, the process table and the trace of the calls made
    so far; Python exceptions ([SystemExit] raised by [die],
    [KeyboardInterrupt], [OSError]) are the error component.  Everything the
    environment decides (what is on [PATH], whether a spawn succeeds, how the
    consumer ends, where the operator presses Ctrl+C) is read from a [World]
    record, so that every theorem quantifies over all of it. *)

From Stdlib Require Import ZArith String List DecimalString.
From stdpp Require Import base gmap strings list.

Local Open Scope string_scope.

(** ** Python values *)

(** [str(n)] for a Python [int]. *)
Definition str_int (n : Z) : string := NilEmpty.string_of_int (Z.to_int n).

(** Truthiness of an [int] option of argparse ([None] when absent). *)
Definition truthy_int (o : option Z) : bool :=
  match o with
  | Some n => negb (n =? 0)%Z
  | None => false
  end.

(** Truthiness of a [str] option of argparse ([None] when absent). *)
Definition truthy_str (o : option string) : bool :=
  match o with
  | Some s => negb (String.eqb s "")
  | None => false
  end.

(** [sep.join(l)]. *)
Definition join (sep : string) (l : list string) : string := String.concat sep l.

(** ** Exceptions, signals, events *)

Inductive Exn :=
| SystemExit (code : Z)
| KeyboardInterrupt
| OSError (what : string).

Inductive Signal := SIGTERM | SIGKILL.

(** Kinds of filesystem entries. *)
Inductive Kind := Dir | File | Socket.

(** The calls the commands make, in the order they make them. *)
Inductive Event :=
| Print (s : string)                                    (* print(s) *)
| Err (s : string)                                      (* the message of die *)
| Stat (p : string)                                     (* exists / is_dir *)
| Unlink (p : string)                                   (* os.unlink *)
| System (cmd : string)                                 (* os.system *)
| Popen (cmd : string) (shell setsid : bool) (pid : nat) (* subprocess.Popen *)
| Sleep (ms : nat)                                      (* time.sleep *)
| Kill (pid : nat) (sig : Signal)                       (* os.kill, one process *)
| Killpg (pgid : nat) (sig : Signal)                    (* os.killpg, a group *)
| Run (argv : list string).                             (* subprocess.run *)

(** How a child that the caller waits for ends. *)
Inductive Ended :=
| Exits (code : Z)          (* the child exited with this status *)
| Interrupted               (* Ctrl+C while the caller was blocked *)
| SpawnFails.               (* the executable could not be started *)

(** ** The environment *)

Record World := {
  (* str(Path(p).resolve()) *)
  resolve : string -> string;
  (* str(Path(b) / 'zephyr' / 'zephyr.elf') *)
  kernel_of : string -> string;
  (* how subprocess.run(argv) ends *)
  run_ends : list string -> Ended;
  (* how os.system(cmd) ends *)
  system_ends : string -> Ended;
  (* the pid of the shell started by subprocess.Popen, None when the
     spawn itself fails *)
  popen_pid : option nat;
  (* Popen.poll() finds that the shell has already exited *)
  shell_exited : bool;
  (* what the processes running in the background did to the filesystem
     while the caller slept *)
  settle : gmap string Kind -> gmap string Kind;
  (* Ctrl+C while the caller sleeps *)
  interrupt_sleep : bool;
  (* the caller may remove the entry at this path (otherwise os.unlink
     raises PermissionError) *)
  may_unlink : string -> bool;
  (* the pid the kernel has in mind for the child of subprocess.run *)
  run_pid : nat;
  (* the child of subprocess.run is still alive when Ctrl+C has ended the
     wait for it *)
  child_lingers : bool
}.

Record State := {
  fs : gmap string Kind;       (* path -> entry *)
  procs : gmap nat nat;        (* pid -> process group id *)
  trace : list Event           (* calls made so far, oldest first *)
}.

Definition init (files : gmap string Kind) : State :=
  {| fs := files; procs := ∅; trace := [] |}.

(** ** The monad *)

Inductive Result (A : Type) :=
| Ok (a : A)
| Raise (e : Exn).
Arguments Ok {A} a.
Arguments Raise {A} e.

Definition M (A : Type) : Type := World -> State -> Result A * State.

Definition ret {A} (a : A) : M A := fun _ s => (Ok a, s).

Definition bind {A B} (m : M A) (k : A -> M B) : M B :=
  fun w s =>
    match m w s with
    | (Ok a, s') => k a w s'
    | (Raise e, s') => (Raise e, s')
    end.

Definition raise {A} (e : Exn) : M A := fun _ s => (Raise e, s).

Declare Scope py_scope.
Delimit Scope py_scope with py.
Notation "x <- c ;; k" := (bind c (fun x => k))
  (at level 100, c at next level, right associativity) : py_scope.
Notation "c ;; k" := (bind c (fun _ => k))
  (at level 100, right associativity) : py_scope.
Local Open Scope py_scope.

(** [if c: body] with no [else]. *)
Definition when (c : bool) (body : M unit) : M unit :=
  if c then body else ret tt.

(** [try: body / except KeyboardInterrupt: handler / finally: final].
    An exception raised by [final] replaces the pending one. *)
Definition try_except_finally (body handler final : M unit) : M unit :=
  fun w s =>
    let '(r, s1) :=
      match body w s with
      | (Raise KeyboardInterrupt, s') => handler w s'
      | other => other
      end in
    match final w s1 with
    | (Ok _, s2) => (r, s2)
    | (Raise e, s2) => (Raise e, s2)
    end.

(** [try: body / except KeyboardInterrupt: handler]. *)
Definition try_except (body handler : M unit) : M unit :=
  try_except_finally body handler (ret tt).

(** ** Operating-system calls *)

Definition emit (e : Event) : M unit :=
  fun _ s => (Ok tt, {| fs := fs s; procs := procs s; trace := trace s ++ [e] |}).

Definition print (s : string) : M unit := emit (Print s).

(** [WestCommand.die(msg)]: logs the message and calls [sys.exit(1)]. *)
Definition die {A} (msg : string) : M A :=
  emit (Err msg) ;; raise (SystemExit 1).

(** [Path(p).resolve()]. *)
Definition path_resolve (p : string) : M string :=
  fun w s => (Ok (resolve w p), s).

(** [os.path.exists(p)], [Path.exists()]. *)
Definition path_exists (p : string) : M bool :=
  emit (Stat p) ;;
  fun _ s => (Ok (match fs s !! p with Some _ => true | None => false end), s).

(** [Path.is_dir()]. *)
Definition is_dir (p : string) : M bool :=
  emit (Stat p) ;;
  fun _ s => (Ok (match fs s !! p with Some Dir => true | _ => false end), s).

(** [os.unlink(p)]: refuses directories, missing paths and entries that
    the caller may not remove. *)
Definition unlink (p : string) : M unit :=
  fun w s =>
    match fs s !! p with
    | Some Dir => (Raise (OSError "IsADirectoryError"), s)
    | Some _ =>
        if may_unlink w p then
          (Ok tt, {| fs := delete p (fs s); procs := procs s;
                     trace := trace s ++ [Unlink p] |})
        else (Raise (OSError "PermissionError"), s)
    | None => (Raise (OSError "FileNotFoundError"), s)
    end.

(** [time.sleep(ms / 1000)]: background processes act on the filesystem
    meanwhile, and the operator may interrupt the sleep. *)
Definition sleep (ms : nat) : M unit :=
  emit (Sleep ms) ;;
  fun w s =>
    let s' := {| fs := settle w (fs s); procs := procs s; trace := trace s |} in
    if interrupt_sleep w then (Raise KeyboardInterrupt, s') else (Ok tt, s').

(** [os.system(cmd)]: the shell runs in the caller's process group and the
    caller keeps no handle to it; the wait status is returned.  The C
    library's [system] ignores SIGINT in the caller while it waits: Ctrl+C
    ends the shell, whose wait status (killed by signal 2) is returned, and
    raises nothing in the caller. *)
Definition os_system (cmd : string) : M Z :=
  emit (System cmd) ;;
  fun w s =>
    match system_ends w cmd with
    | Exits c => (Ok c, s)
    | Interrupted => (Ok 2%Z, s)
    | SpawnFails => (Ok (-1)%Z, s)
    end.

(** The pid of a new child: the one the kernel has in mind unless a
    process of the table has it, and then one that no process of the table
    has. *)
Definition alloc_pid (wanted : nat) (table : gmap nat nat) : nat :=
  match table !! wanted with
  | None => wanted
  | Some _ => fresh (dom table)
  end.

(** [subprocess.run(argv)]: waits for the child, returns its exit code.
    When Ctrl+C ends the wait, [subprocess.run] calls [Popen.kill] before
    it lets the [KeyboardInterrupt] through: a child that is still alive
    gets SIGKILL. *)
Definition subprocess_run (argv : list string) : M Z :=
  emit (Run argv) ;;
  fun w s =>
    match run_ends w argv with
    | Exits c => (Ok c, s)
    | Interrupted =>
        if child_lingers w then
          (Raise KeyboardInterrupt,
           {| fs := fs s; procs := procs s;
              trace := trace s ++ [Kill (alloc_pid (run_pid w) (procs s)) SIGKILL] |})
        else (Raise KeyboardInterrupt, s)
    | SpawnFails => (Raise (OSError "FileNotFoundError"), s)
    end.

(** [subprocess.Popen(cmd, shell=True, preexec_fn=os.setsid)]: the shell
    calls [setsid] before it runs [cmd], so it leads a new process group
    whose id is its own pid.  The handle returned is the pid. *)
Definition popen_shell_setsid (cmd : string) : M nat :=
  fun w s =>
    match popen_pid w with
    | Some pid =>
        (Ok pid, {| fs := fs s; procs := <[pid := pid]> (procs s);
                    trace := trace s ++ [Popen cmd true true pid] |})
    | None => (Raise (OSError "Popen"), s)
    end.

(** [Popen.terminate()]: polls the child and, unless it has already
    exited, sends SIGTERM to the child's pid (not to its group). *)
Definition terminate (pid : nat) : M unit :=
  fun w s => if shell_exited w then (Ok tt, s) else emit (Kill pid SIGTERM) w s.

(** [os.getpgid(pid)]. *)
Definition getpgid (pid : nat) : M nat :=
  fun _ s =>
    match procs s !! pid with
    | Some g => (Ok g, s)
    | None => (Raise (OSError "ProcessLookupError"), s)
    end.

(** [os.killpg(pgid, sig)]. *)
Definition killpg (pgid : nat) (sig : Signal) : M unit := emit (Killpg pgid sig).

(** The newline character of the Python string literals. *)
Definition nl : string := String (Ascii.ascii_of_nat 10) EmptyString.

(** [f"{o}"] for an optional [int]. *)
Definition fmt_int (o : option Z) : string :=
  match o with
  | Some n => str_int n
  | None => "None"
  end.

(** ** [9p-serve] *)

Module NinePServe.

Record Args := {
  directory : string;       (* positional, default os.getcwd() *)
  socket : string;          (* -s, default /tmp/9p.sock *)
  port : option Z;          (* -p, type=int, no default *)
  daemon : bool             (* -d, store_true *)
}.

(** [_check_command]: [which cmd] returns 0. *)
Definition _check_command (cmd : string) : M bool :=
  c <- subprocess_run ["which"; cmd] ;;
  ret (c =? 0)%Z.

(** The address handed to 9pserve (the [addr] of lines 67-71). *)
Definition addr_of (args : Args) : string :=
  if truthy_int (port args)
  then "tcp!*!" +:+ fmt_int (port args)
  else "unix!" +:+ socket args.

(** The shell pipeline of line 77. *)
Definition pipeline_cmd (directory addr : string) : string :=
  "9pex " +:+ directory +:+ " | 9pserve " +:+ addr.

Definition do_run (args : Args) : M unit :=
  directory <- path_resolve (directory args) ;;
  d <- is_dir directory ;;
  when (negb d) (die ("Directory not found: " +:+ directory)) ;;
  (* Check for 9pex and 9pserve *)
  ok <- _check_command "9pex" ;;
  when (negb ok)
    (die "9pex not found. Install plan9port (brew install plan9port)") ;;
  ok <- _check_command "9pserve" ;;
  when (negb ok)
    (die "9pserve not found. Install plan9port (brew install plan9port)") ;;
  (* Build command *)
  let addr := addr_of args in
  (if truthy_int (port args) then
     print ("Starting 9P server on TCP port " +:+ fmt_int (port args) +:+ "...")
   else
     (* Remove existing socket *)
     e <- path_exists (socket args) ;;
     when e (unlink (socket args)) ;;
     print ("Starting 9P server on Unix socket " +:+ socket args +:+ "...")) ;;
  let cmd := pipeline_cmd directory addr in
  if daemon args then
    let cmd := cmd +:+ " &" in
    print ("Command: " +:+ cmd) ;;
    os_system cmd ;;
    sleep 500 ;;
    print "Server started in background" ;;
    when (negb (truthy_int (port args))) (print ("Socket: " +:+ socket args))
  else
    print ("Command: " +:+ cmd) ;;
    print "Press Ctrl+C to stop server" ;;
    try_except
      (os_system cmd ;; ret tt)
      (print (nl +:+ "Server stopped")).

End NinePServe.

(** ** [9p-run] *)

Module NinePRun.

Record Args := {
  socket : string;              (* -s, default /tmp/9p.sock *)
  board : string;               (* -b, default qemu_x86 *)
  build_dir : option string;    (* -d, no default *)
  serve_dir : option string;    (* --serve-dir, no default *)
  memory : Z                    (* -m, type=int, default 32 *)
}.

(** The shell pipeline of line 155. *)
Definition pipeline_cmd (serve_dir socket : string) : string :=
  "9pex " +:+ serve_dir +:+ " | 9pserve unix!" +:+ socket.

(** The QEMU command of lines 181-190. *)
Definition qemu_cmd (memory : Z) (socket kernel : string) : list string :=
  [ "qemu-system-i386";
    "-m"; str_int memory;
    "-cpu"; "qemu32";
    "-device"; "isa-debug-exit,iobase=0xf4,iosize=0x04";
    "-no-reboot";
    "-nographic";
    "-serial"; "unix:" +:+ socket;
    "-kernel"; kernel ].

(** [build_dir / 'zephyr' / 'zephyr.elf'] of lines 168-173. *)
Definition kernel_path (args : Args) : M string :=
  let build_dir :=
    if truthy_str (build_dir args)
    then default "" (build_dir args)
    else "build" in
  fun w s => (Ok (kernel_of w build_dir), s).

(** [if server_proc: server_proc.terminate()]. *)
Definition terminate_server (server_proc : option nat) : M unit :=
  match server_proc with
  | Some pid => terminate pid
  | None => ret tt
  end.

(** Lines 142-158: auto-start the server if requested. *)
Definition auto_start (args : Args) : M (option nat) :=
  if truthy_str (serve_dir args) then
    serve_dir <- path_resolve (default "" (serve_dir args)) ;;
    d <- is_dir serve_dir ;;
    when (negb d) (die ("Serve directory not found: " +:+ serve_dir)) ;;
    (* Remove existing socket *)
    e <- path_exists (socket args) ;;
    when e (unlink (socket args)) ;;
    print ("Starting 9P server for " +:+ serve_dir +:+ "...") ;;
    pid <- popen_shell_setsid (pipeline_cmd serve_dir (socket args)) ;;
    sleep 500 ;;
    ret (Some pid)
  else
    ret None.

(** Lines 160-203: check the socket and the kernel, run QEMU, stop the
    server. *)
Definition launch (args : Args) (server_proc : option nat) : M unit :=
  (* Check socket exists *)
  e <- path_exists (socket args) ;;
  when (negb e)
    (terminate_server server_proc ;;
     die ("Socket not found: " +:+ socket args +:+ nl +:+
          "Start server first with: west 9p-serve")) ;;
  (* Find build directory *)
  kernel <- kernel_path args ;;
  e <- path_exists kernel ;;
  when (negb e)
    (terminate_server server_proc ;;
     die ("Kernel not found: " +:+ kernel +:+ nl +:+
          "Build first with: west build -b " +:+ board args +:+
          " 9p4z/samples/9p_client")) ;;
  (* Build QEMU command *)
  let cmd := qemu_cmd (memory args) (socket args) kernel in
  print "Running QEMU with 9P client..." ;;
  print ("Command: " +:+ join " " cmd) ;;
  print "" ;;
  try_except_finally
    (subprocess_run cmd ;; ret tt)
    (print (nl +:+ "QEMU stopped"))
    (match server_proc with
     | Some pid =>
         print "Stopping 9P server..." ;;
         pgid <- getpgid pid ;;
         killpg pgid SIGTERM
     | None => ret tt
     end).

Definition do_run (args : Args) : M unit :=
  server_proc <- auto_start args ;;
  launch args server_proc.

End NinePRun.

(** ** Reading a finished call *)

(** The result and the calls of a command started on the filesystem
    [files], with no child process yet and nothing printed. *)
Definition result_of {A} (m : M A) (w : World) (files : gmap string Kind) : Result A :=
  fst (m w (init files)).

Definition calls_of {A} (m : M A) (w : World) (files : gmap string Kind) : list Event :=
  trace (snd (m w (init files))).

(** The exit status the command hands to its caller: a normal return of
    [do_run] (which returns [None]) is status 0, [sys.exit(n)] is status
    [n]; what becomes of any other exception is decided by the caller. *)
Definition exit_status {A} (r : Result A) : option Z :=
  match r with
  | Ok _ => Some 0%Z
  | Raise (SystemExit n) => Some n
  | Raise _ => None
  end.

Definition count (p : Event -> bool) (tr : list Event) : nat :=
  length (List.filter p tr).

(** Signals sent to the whole process group [g]. *)
Definition group_signals (g : nat) (tr : list Event) : nat :=
  count (fun e => match e with Killpg g' _ => Nat.eqb g g' | _ => false end) tr.

(** Signals sent to the single process [pid]. *)
Definition process_signals (pid : nat) (tr : list Event) : nat :=
  count (fun e => match e with Kill p _ => Nat.eqb pid p | _ => false end) tr.

(** Signals of either sort, to anybody. *)
Definition signals_sent (tr : list Event) : nat :=
  count (fun e => match e with Kill _ _ | Killpg _ _ => true | _ => false end) tr.

(** Calls of [subprocess.run]. *)
Definition subprocess_runs (tr : list Event) : nat :=
  count (fun e => match e with Run _ => true | _ => false end) tr.

(** The command lines given to [subprocess.run]. *)
Definition run_argvs (tr : list Event) : list (list string) :=
  flat_map (fun e => match e with Run argv => [argv] | _ => [] end) tr.

Definition is_popen (e : Event) : bool :=
  match e with Popen _ _ _ _ => true | _ => false end.

Definition is_system (e : Event) : bool :=
  match e with System _ => true | _ => false end.

Definition is_sleep (e : Event) : bool :=
  match e with Sleep _ => true | _ => false end.

(** A call that starts a shell pipeline. *)
Definition starts_pipeline (e : Event) : bool := is_popen e || is_system e.

(** The shell started by the call leads a process group of its own. *)
Definition leads_new_group (e : Event) : bool :=
  match e with Popen _ _ true _ => true | _ => false end.

(** Every start of a pipeline in [tr] is immediately followed by a sleep of
    500 ms, and [tr] holds no other sleep. *)
Fixpoint delay_follows (start : Event -> bool) (tr : list Event) : bool :=
  match tr with
  | [] => true
  | e :: rest =>
      if start e then
        match rest with
        | Sleep 500 :: rest' => delay_follows start rest'
        | _ => false
        end
      else
        match e with
        | Sleep _ => false
        | _ => delay_follows start rest
        end
  end.

Definition is_stat (e : Event) : bool :=
  match e with Stat _ => true | _ => false end.

(** The filesystem probes made after the first start of a pipeline. *)
Fixpoint probes_after (start : Event -> bool) (tr : list Event) : nat :=
  match tr with
  | [] => 0
  | e :: rest => if start e then count is_stat rest else probes_after start rest
  end.

(** [args] with another board selector. *)
Definition set_board (b : string) (args : NinePRun.Args) : NinePRun.Args :=
  {| NinePRun.socket := NinePRun.socket args;
     NinePRun.board := b;
     NinePRun.build_dir := NinePRun.build_dir args;
     NinePRun.serve_dir := NinePRun.serve_dir args;
     NinePRun.memory := NinePRun.memory args |}.

(** [s.startswith(p)]. *)
Fixpoint starts_with (p s : string) : bool :=
  match p, s with
  | EmptyString, _ => true
  | String a p', String b s' => Ascii.eqb a b && starts_with p' s'
  | String _ _, EmptyString => false
  end.

(** Blanks the text of the message that [die] prints when the kernel is
    missing, and of no other call. *)
Definition mask_kernel_hint (e : Event) : Event :=
  match e with
  | Err msg => if starts_with "Kernel not found: " msg then Err "" else e
  | _ => e
  end.

(** [os.path.exists(p)] followed by [os.unlink(p)] gets through on
    [files]: nothing is at [p], or something that is not a directory and
    that the caller may remove. *)
Definition clearable (w : World) (files : gmap string Kind) (p : string) : bool :=
  match files !! p with
  | None => true
  | Some Dir => false
  | Some _ => may_unlink w p
  end.

(** A call on the server side: removal of the socket, start of a pipeline,
    the settle delay, a signal to a process group. *)
Definition is_server_call (e : Event) : bool :=
  match e with
  | Unlink _ | System _ | Popen _ _ _ _ | Sleep _ | Killpg _ _ => true
  | _ => false
  end.

(** SIGTERM sent to a process or to a group. *)
Definition is_sigterm (e : Event) : bool :=
  match e with
  | Kill _ SIGTERM | Killpg _ SIGTERM => true
  | _ => false
  end.

Definition is_unlink (e : Event) : bool :=
  match e with Unlink _ => true | _ => false end.

(** The paths given to [os.unlink]. *)
Definition filter_unlinks (tr : list Event) : list string :=
  flat_map (fun e => match e with Unlink p => [p] | _ => [] end) tr.

(** A call by which the command removes a file, starts or signals a
    background process, or waits for one to settle. *)
Definition takes_charge (e : Event) : bool :=
  match e with
  | Unlink _ | System _ | Popen _ _ _ _ | Sleep _ | Kill _ _ | Killpg _ _ => true
  | _ => false
  end.

(** No call that satisfies [p] comes after the first call that satisfies
    [q]. *)
Fixpoint none_after (q p : Event -> bool) (tr : list Event) : bool :=
  match tr with
  | [] => true
  | e :: rest => if q e then negb (existsb p rest) else none_after q p rest
  end.

(** The line [line] is printed at an earlier position of [tr] than the
    call [e] is made. *)
Definition printed_before (line : string) (e : Event) (tr : list Event) : Prop :=
  exists i j, i < j /\ tr !! i = Some (Print line) /\ tr !! j = Some e.

(** The kernel path that [NinePRun.do_run] computes at lines 168-173. *)
Definition kernel_at (args : NinePRun.Args) (w : World) : string :=
  match NinePRun.kernel_path args w (init ∅) with
  | (Ok kernel, _) => kernel
  | (Raise _, _) => ""
  end.

(** The state in which [NinePRun.do_run] reaches the socket check of line
    161, and the server it then holds. *)
Definition at_launch (args : NinePRun.Args) (w : World) (files : gmap string Kind)
  : Result (option nat) * State :=
  NinePRun.auto_start args w (init files).

(** [args] with other values of single options. *)
Definition set_serve_dir (o : option string) (args : NinePRun.Args) : NinePRun.Args :=
  {| NinePRun.socket := NinePRun.socket args;
     NinePRun.board := NinePRun.board args;
     NinePRun.build_dir := NinePRun.build_dir args;
     NinePRun.serve_dir := o;
     NinePRun.memory := NinePRun.memory args |}.

Definition set_build_dir (o : option string) (args : NinePRun.Args) : NinePRun.Args :=
  {| NinePRun.socket := NinePRun.socket args;
     NinePRun.board := NinePRun.board args;
     NinePRun.build_dir := o;
     NinePRun.serve_dir := NinePRun.serve_dir args;
     NinePRun.memory := NinePRun.memory args |}.

Definition set_port (o : option Z) (args : NinePServe.Args) : NinePServe.Args :=
  {| NinePServe.directory := NinePServe.directory args;
     NinePServe.socket := NinePServe.socket args;
     NinePServe.port := o;
     NinePServe.daemon := NinePServe.daemon args |}.

(** ** The defaults of the two parsers *)

Module Defaults.

(** The arguments that the parser of [NinePServe.do_add_parser] yields for
    [west 9p-serve] alone; [cwd] is [os.getcwd()]. *)
Definition serve (cwd : string) : NinePServe.Args :=
  {| NinePServe.directory := cwd;
     NinePServe.socket := "/tmp/9p.sock";
     NinePServe.port := None;
     NinePServe.daemon := false |}.

(** The arguments that the parser of [NinePRun.do_add_parser] yields for
    [west 9p-run] alone. *)
Definition run : NinePRun.Args :=
  {| NinePRun.socket := "/tmp/9p.sock";
     NinePRun.board := "qemu_x86";
     NinePRun.build_dir := None;
     NinePRun.serve_dir := None;
     NinePRun.memory := 32 |}.

End Defaults.

(** ** The claims of the specification, as it words them *)

(** An endpoint the specification calls invalid: a requested TCP port that
    is not positive, or else an empty Unix socket path. *)
Definition spec_invalid_endpoint (args : NinePServe.Args) : bool :=
  match NinePServe.port args with
  | Some p => (p <=? 0)%Z
  | None => String.eqb (NinePServe.socket args) ""
  end.

(** "resolve fails on an invalid endpoint, and no process is started from
    it". *)
Definition spec_rejects_invalid_endpoint
    (args : NinePServe.Args) (w : World) (files : gmap string Kind) : Prop :=
  spec_invalid_endpoint args = true ->
  (exists e, result_of (NinePServe.do_run args) w files = Raise e) /\
  count starts_pipeline (calls_of (NinePServe.do_run args) w files) = 0.

(** "the session's exit status forwards the consumer's exit code". *)
Definition spec_forwards_exit_code
    (args : NinePRun.Args) (w : World) (files : gmap string Kind) : Prop :=
  forall argv c,
    In argv (run_argvs (calls_of (NinePRun.do_run args) w files)) ->
    run_ends w argv = Exits c ->
    exit_status (result_of (NinePRun.do_run args) w files) = Some c.

(** "every pipeline is started as the leader of a new process group". *)
Definition spec_pipelines_lead_groups (tr : list Event) : Prop :=
  forall e, In e tr -> starts_pipeline e = true -> leads_new_group e = true.

(** ** Scenarios *)

Module Scenario.

(** An environment in which [which] returns [which_code], the consumer
    ends as [consumer] says, the server binds /tmp/9p.sock during the
    settle delay when [binds], and the operator interrupts the delay
    when [ctrl_c]. *)
Definition world (which_code : Z) (consumer : Ended) (binds ctrl_c : bool) : World :=
  {| resolve := fun p => p;
     kernel_of := fun b => b +:+ "/zephyr/zephyr.elf";
     run_ends := fun argv =>
       match argv with
       | "which" :: _ => Exits which_code
       | _ => consumer
       end;
     system_ends := fun _ => Exits 0;
     popen_pid := Some 4242;
     shell_exited := false;
     settle := if binds then <["/tmp/9p.sock" := Socket]> else fun m => m;
     interrupt_sleep := ctrl_c;
     may_unlink := fun _ => true;
     run_pid := 4243;
     child_lingers := false |}.

Definition files : gmap string Kind :=
  {[ "/srv" := Dir; "build/zephyr/zephyr.elf" := File ]}.

(** [west 9p-run --serve-dir /srv] *)
Definition run_serving : NinePRun.Args :=
  {| NinePRun.socket := "/tmp/9p.sock"; NinePRun.board := "qemu_x86";
     NinePRun.build_dir := None; NinePRun.serve_dir := Some "/srv";
     NinePRun.memory := 32 |}.

(** [west 9p-run] *)
Definition run_plain : NinePRun.Args :=
  {| NinePRun.socket := "/tmp/9p.sock"; NinePRun.board := "qemu_x86";
     NinePRun.build_dir := None; NinePRun.serve_dir := None;
     NinePRun.memory := 32 |}.

(** [west 9p-serve /srv], with [-p port] and [-d] as given. *)
Definition serve (port : option Z) (daemon : bool) : NinePServe.Args :=
  {| NinePServe.directory := "/srv"; NinePServe.socket := "/tmp/9p.sock";
     NinePServe.port := port; NinePServe.daemon := daemon |}.

(** Everything goes well; the consumer exits with [code]. *)
Definition consumer_exits (code : Z) : World := world 0 (Exits code) true false.

(** The server has not bound the socket when the settle delay is over. *)
Definition never_binds : World := world 0 (Exits 0) false false.

(** The operator presses Ctrl+C during the settle delay. *)
Definition ctrl_c_while_settling : World := world 0 (Exits 0) true true.

(** Neither 9pex nor 9pserve is on PATH: [which] returns 1. *)
Definition no_tools : World := world 1 (Exits 0) false false.

(** [w] with every [os.system] call ending as [e] says. *)
Definition with_system (e : Ended) (w : World) : World :=
  {| resolve := resolve w; kernel_of := kernel_of w; run_ends := run_ends w;
     system_ends := fun _ => e;
     popen_pid := popen_pid w; shell_exited := shell_exited w;
     settle := settle w; interrupt_sleep := interrupt_sleep w;
     may_unlink := may_unlink w; run_pid := run_pid w;
     child_lingers := child_lingers w |}.

(** [w] with [subprocess.Popen] failing. *)
Definition without_popen (w : World) : World :=
  {| resolve := resolve w; kernel_of := kernel_of w; run_ends := run_ends w;
     system_ends := system_ends w;
     popen_pid := None; shell_exited := shell_exited w;
     settle := settle w; interrupt_sleep := interrupt_sleep w;
     may_unlink := may_unlink w; run_pid := run_pid w;
     child_lingers := child_lingers w |}.

(** Only 9pex is on PATH. *)
Definition no_9pserve : World :=
  {| resolve := fun p => p;
     kernel_of := fun b => b +:+ "/zephyr/zephyr.elf";
     run_ends := fun argv =>
       match argv with
       | ["which"; "9pex"] => Exits 0
       | "which" :: _ => Exits 1
       | _ => Exits 0
       end;
     system_ends := fun _ => Exits 0;
     popen_pid := Some 4242;
     shell_exited := false;
     settle := fun m => m;
     interrupt_sleep := false;
     may_unlink := fun _ => true;
     run_pid := 4243;
     child_lingers := false |}.

(** [w] with a child of [subprocess.run] that survives Ctrl+C, and a
    kernel that has the pid [pid] in mind for it. *)
Definition with_lingering_child (pid : nat) (w : World) : World :=
  {| resolve := resolve w; kernel_of := kernel_of w; run_ends := run_ends w;
     system_ends := system_ends w;
     popen_pid := popen_pid w; shell_exited := shell_exited w;
     settle := settle w; interrupt_sleep := interrupt_sleep w;
     may_unlink := may_unlink w; run_pid := pid;
     child_lingers := true |}.

(** A server is already bound to /tmp/9p.sock. *)
Definition files_served : gmap string Kind :=
  <["/tmp/9p.sock" := Socket]> files.

(** A server is bound, the sample has not been built. *)
Definition files_unbuilt : gmap string Kind :=
  {[ "/srv" := Dir; "/tmp/9p.sock" := Socket ]}.

(** Somebody made a directory of /tmp/9p.sock. *)
Definition files_socket_dir : gmap string Kind :=
  <["/tmp/9p.sock" := Dir]> files.

(** The QEMU command line of [run_serving] and [run_plain]. *)
Definition qemu : list string :=
  NinePRun.qemu_cmd 32 "/tmp/9p.sock" "build/zephyr/zephyr.elf".

End Scenario.

(** * Proofs *)

(** ** Symbolic execution of the two commands *)

Ltac unfold_py :=
  cbv beta iota zeta delta
    [NinePRun.do_run NinePRun.auto_start NinePRun.launch
     NinePRun.terminate_server NinePRun.kernel_path
     NinePServe.do_run NinePServe._check_command
     bind ret raise when try_except try_except_finally
     emit print die path_resolve path_exists is_dir unlink sleep os_system
     subprocess_run popen_shell_setsid terminate getpgid killpg
     init].

Ltac reduce_state :=
  cbn beta iota zeta delta
    [fs procs trace fst snd negb app set_board
     NinePRun.socket NinePRun.board NinePRun.build_dir NinePRun.serve_dir
     NinePRun.memory].

Ltac atomic x :=
  lazymatch x with
  | context [match _ with _ => _ end] => fail
  | _ => idtac
  end.

Ltac split_path :=
  match goal with
  | |- context [match ?x with _ => _ end] =>
      atomic x; destruct x eqn:?; reduce_state; rewrite ?lookup_insert_eq
  end.

(** Runs [m w (init files)] along every path; each remaining goal has the
    result and the final state of one path in place of [m w (init files)]. *)
Ltac run_paths m w files :=
  unfold result_of, calls_of;
  let r := fresh "r" in
  let s := fresh "s" in
  let E := fresh "E" in
  destruct (m w (init files)) as [r s] eqn:E;
  revert E; unfold_py; reduce_state; repeat split_path;
  intros E; injection E as <- <-; reduce_state.

(** Case analysis on a membership in an explicit trace. *)
Ltac in_trace H :=
  cbn [In flat_map app run_argvs] in H;
  repeat match type of H with
         | _ \/ _ => destruct H as [H | H]; [try discriminate H |]
         | False => destruct H
         end.

(** Membership of a call in an explicit trace. *)
Ltac find_in := cbn [In]; repeat (first [left; reflexivity | right]).

(** String append: the empty string on the right, and association. *)
Lemma append_empty_r (s : string) : s +:+ "" = s.
Proof.
  induction s as [| c s IH]; [reflexivity | exact (f_equal (String c) IH)].
Qed.

Lemma append_assoc (a b c : string) : (a +:+ b) +:+ c = a +:+ (b +:+ c).
Proof.
  induction a as [| x a IH]; [reflexivity | exact (f_equal (String x) IH)].
Qed.

(** The child of [subprocess.run] is not the shell of the pipeline. *)
Lemma alloc_pid_fresh wanted (table : gmap nat nat) :
  table !! alloc_pid wanted table = None.
Proof.
  unfold alloc_pid. destruct (table !! wanted) eqn:E; [| exact E].
  apply not_elem_of_dom, is_fresh.
Qed.

Lemma alloc_pid_other wanted (table : gmap nat nat) pid g :
  table !! pid = Some g -> Nat.eqb pid (alloc_pid wanted table) = false.
Proof.
  intros H. apply Nat.eqb_neq. intros ->.
  rewrite alloc_pid_fresh in H. discriminate H.
Qed.

Ltac count_events :=
  cbn [count group_signals process_signals signals_sent subprocess_runs
       List.filter length is_popen is_system is_sleep starts_pipeline
       leads_new_group orb];
  erewrite ?alloc_pid_other by apply lookup_insert_eq;
  rewrite ?Nat.eqb_refl; cbn [length].

(** What the test [returncode == 0] has found. *)
Ltac exit_codes :=
  repeat match goal with
         | H : negb (_ =? 0)%Z = false |- _ =>
             apply negb_false_iff, Z.eqb_eq in H; subst
         | H : negb (_ =? 0)%Z = true |- _ =>
             apply negb_true_iff, Z.eqb_neq in H
         end.

(** ** The run workflow: teardown *)

Section RunTeardown.

Variable args : NinePRun.Args.
Variable w : World.
Variable files : gmap string Kind.

Let result := result_of (NinePRun.do_run args) w files.
Let calls := calls_of (NinePRun.do_run args) w files.

(** Once the consumer has been started, the finally block signals the
    group of a pipeline started by this session exactly once, however the
    consumer ends. *)
Lemma teardown_once_after_consumer cmd sh ss pid argv :
  In (Popen cmd sh ss pid) calls ->
  In argv (run_argvs calls) ->
  group_signals pid calls = 1 /\ process_signals pid calls = 0.
Proof.
  subst result calls.
  run_paths (NinePRun.do_run args) w files.
  all: intros HP HR; in_trace HR; in_trace HP.
  all: injection HP as -> -> -> ->; count_events; auto.
Qed.

(** C1, on the precondition-failure paths.  When the session has started
    a pipeline and then dies because the socket or the kernel is missing,
    it has called [Popen.terminate], which signals the shell's pid alone
    (and nothing when the shell is already gone): the pipeline's process
    group has received no signal when the call returns. *)
Theorem precondition_failure_skips_group_signal cmd sh ss pid :
  In (Popen cmd sh ss pid) calls ->
  result = Raise (SystemExit 1) ->
  group_signals pid calls = 0 /\
  process_signals pid calls = (if shell_exited w then 0 else 1).
Proof.
  subst result calls.
  run_paths (NinePRun.do_run args) w files.
  all: intros HP HR; try discriminate HR; in_trace HP.
  all: injection HP as -> -> -> ->; count_events; auto.
Qed.

(** C3, at the settle delay.  When the operator interrupts the sleep that
    follows the spawn of the pipeline, [do_run] ends with the
    [KeyboardInterrupt] still raised and has signalled nobody. *)
Theorem settle_interrupt_unhandled cmd sh ss pid :
  In (Popen cmd sh ss pid) calls ->
  interrupt_sleep w = true ->
  result = Raise KeyboardInterrupt /\ signals_sent calls = 0.
Proof.
  subst result calls.
  run_paths (NinePRun.do_run args) w files.
  all: intros HP HI; try discriminate HI; in_trace HP.
  all: count_events; auto.
Qed.

(** An interruption of the wait on the consumer is caught: [do_run]
    returns normally, after the teardown of the finally block. *)
Lemma consumer_interrupt_handled argv :
  In argv (run_argvs calls) ->
  run_ends w argv = Interrupted ->
  result = Ok tt /\ In (Print (nl +:+ "QEMU stopped")) calls.
Proof.
  subst result calls.
  run_paths (NinePRun.do_run args) w files.
  all: intros HR HE; in_trace HR; subst argv; try congruence.
  all: split; [reflexivity | find_in].
Qed.

(** C2, as the code has it.  When the consumer has run and exited with
    code [c], [do_run] returns normally whatever [c] is: the status of the
    session is 0 and the consumer's code is dropped. *)
Theorem consumer_exit_code_discarded argv c :
  In argv (run_argvs calls) ->
  run_ends w argv = Exits c ->
  result = Ok tt /\ exit_status result = Some 0%Z.
Proof.
  subst result calls.
  run_paths (NinePRun.do_run args) w files.
  all: intros HR HE; in_trace HR; subst argv; try congruence.
  all: auto.
Qed.

End RunTeardown.

(** ** The run workflow: preconditions *)

Section RunPreconditions.

Variable args : NinePRun.Args.
Variable w : World.
Variable files : gmap string Kind.

Let result := result_of (NinePRun.do_run args) w files.
Let calls := calls_of (NinePRun.do_run args) w files.

(** The run workflow never calls [which]: every [subprocess.run] it makes
    is the QEMU command. *)
Lemma run_only_runs_qemu argv :
  In argv (run_argvs calls) -> hd "" argv = "qemu-system-i386".
Proof.
  subst result calls.
  run_paths (NinePRun.do_run args) w files.
  all: intros HR; in_trace HR; subst argv; reflexivity.
Qed.

(** C5, in the run workflow.  With a serve directory that is a directory
    and a socket path that can be cleared, the pipeline is spawned whatever
    [which] would say of 9pex and 9pserve: the run workflow looks up
    neither tool. *)
Theorem run_spawns_without_tool_check pid :
  truthy_str (NinePRun.serve_dir args) = true ->
  files !! resolve w (default "" (NinePRun.serve_dir args)) = Some Dir ->
  clearable w files (NinePRun.socket args) = true ->
  popen_pid w = Some pid ->
  In (Popen
        (NinePRun.pipeline_cmd
           (resolve w (default "" (NinePRun.serve_dir args)))
           (NinePRun.socket args))
        true true pid)
     calls /\
  (forall tool, ~ In ["which"; tool] (run_argvs calls)).
Proof.
  subst result calls. unfold clearable.
  run_paths (NinePRun.do_run args) w files.
  all: intros HT HD HK HP; try congruence.
  all: injection HP as ->.
  all: split; [find_in | intros tool HR; in_trace HR; discriminate HR].
Qed.

(** C7.  When the socket path does not exist once the auto-start block is
    over, [do_run] dies with the message that names the socket and tells
    to start the server first, and has made no call of [subprocess.run]:
    the consumer was never spawned. *)
Theorem socket_missing_dies_before_consumer server_proc :
  result_of (NinePRun.auto_start args) w files = Ok server_proc ->
  fs (snd (NinePRun.auto_start args w (init files))) !! NinePRun.socket args
    = None ->
  result = Raise (SystemExit 1) /\
  last calls =
    Some (Err ("Socket not found: " +:+ NinePRun.socket args +:+ nl +:+
               "Start server first with: west 9p-serve")) /\
  subprocess_runs calls = 0.
Proof.
  subst result calls.
  run_paths (NinePRun.do_run args) w files.
  all: intros HA HS; try discriminate HA; try congruence.
  all: count_events; auto.
Qed.

End RunPreconditions.

(** ** The serve workflow *)

Section Serve.

Variable args : NinePServe.Args.
Variable w : World.
Variable files : gmap string Kind.

Let result := result_of (NinePServe.do_run args) w files.
Let calls := calls_of (NinePServe.do_run args) w files.

(** The serve workflow starts its pipeline only after the directory and
    both tools have been checked. *)
Lemma serve_checks_before_spawn e :
  In e calls ->
  starts_pipeline e = true ->
  files !! resolve w (NinePServe.directory args) = Some Dir /\
  run_ends w ["which"; "9pex"] = Exits 0 /\
  run_ends w ["which"; "9pserve"] = Exits 0.
Proof.
  subst result calls.
  run_paths (NinePServe.do_run args) w files.
  all: intros HP HS; in_trace HP; subst e; try discriminate HS.
  all: exit_codes.
  all: auto.
Qed.

(** A failed check ends the serve workflow through [die], with nothing
    started. *)
Lemma serve_failed_check_dies :
  files !! resolve w (NinePServe.directory args) <> Some Dir \/
  (exists c, run_ends w ["which"; "9pex"] = Exits c /\ c <> 0%Z) \/
  (exists c, run_ends w ["which"; "9pserve"] = Exits c /\ c <> 0%Z) ->
  count starts_pipeline calls = 0.
Proof.
  subst result calls.
  run_paths (NinePServe.do_run args) w files.
  all: try (intros _; reflexivity).
  all: exit_codes.
  all: intros [H | [[c [H Hc]] | [c [H Hc]]]]; congruence.
Qed.

(** Ctrl+C during the foreground [os.system] raises nothing in the
    caller: [os.system] returns once the shell has ended, [do_run] returns
    normally with that call as its last, and the message of the except
    branch is not printed. *)
Theorem foreground_interrupt_returns cmd :
  NinePServe.daemon args = false ->
  In (System cmd) calls ->
  system_ends w cmd = Interrupted ->
  result = Ok tt /\
  last calls = Some (System cmd) /\
  ~ In (Print (nl +:+ "Server stopped")) calls.
Proof.
  subst result calls.
  run_paths (NinePServe.do_run args) w files.
  all: intros HD HP HE; try discriminate HD; in_trace HP.
  all: injection HP as <-; try congruence.
  all: split; [reflexivity |]; split; [reflexivity |].
  all: intros HN; in_trace HN.
  all: injection HN as HN; cbv in HN; discriminate HN.
Qed.

(** C4, as the code has it.  The serve workflow validates no endpoint:
    once the directory and the tools have been checked, and provided that
    on a Unix socket the path holds nothing or something that
    [os.unlink] removes, the pipeline is started on the address built from
    the arguments as they are: the TCP form for every port other than 0,
    negative ones included, and the Unix form for every socket string, the
    empty one included, when the port is absent or 0. *)
Theorem endpoint_not_validated :
  files !! resolve w (NinePServe.directory args) = Some Dir ->
  run_ends w ["which"; "9pex"] = Exits 0 ->
  run_ends w ["which"; "9pserve"] = Exits 0 ->
  (truthy_int (NinePServe.port args) = false ->
   clearable w files (NinePServe.socket args) = true) ->
  In (System
        (if NinePServe.daemon args
         then NinePServe.pipeline_cmd
                (resolve w (NinePServe.directory args))
                (NinePServe.addr_of args) +:+ " &"
         else NinePServe.pipeline_cmd
                (resolve w (NinePServe.directory args))
                (NinePServe.addr_of args)))
     calls /\
  (forall p, NinePServe.port args = Some p -> p <> 0%Z ->
             NinePServe.addr_of args = "tcp!*!" +:+ str_int p) /\
  (truthy_int (NinePServe.port args) = false ->
   NinePServe.addr_of args = "unix!" +:+ NinePServe.socket args).
Proof.
  intros HD HX HS HK. split.
  - revert HD HX HS HK. subst result calls. unfold clearable.
    run_paths (NinePServe.do_run args) w files.
    all: intros HD HX HS HK; try congruence.
    all: try (injection HX as ->; discriminate).
    all: try (injection HS as ->; discriminate).
    all: try (specialize (HK eq_refl); discriminate HK).
    all: find_in.
  - unfold NinePServe.addr_of. split.
    + intros p -> Hp. cbn [truthy_int fmt_int].
      destruct (Z.eqb_spec p 0); [contradiction | reflexivity].
    + intros ->. reflexivity.
Qed.

End Serve.

(** ** Addresses *)

Section Addresses.

Variable sargs : NinePServe.Args.
Variable rargs : NinePRun.Args.
Variable w : World.
Variable files : gmap string Kind.

Let serve_calls := calls_of (NinePServe.do_run sargs) w files.
Let run_calls := calls_of (NinePRun.do_run rargs) w files.

(** When its checks pass, the serve workflow hands the pipeline on
    [addr_of] to [os.system]. *)
Lemma serve_reaches_os_system :
  files !! resolve w (NinePServe.directory sargs) = Some Dir ->
  run_ends w ["which"; "9pex"] = Exits 0 ->
  run_ends w ["which"; "9pserve"] = Exits 0 ->
  (truthy_int (NinePServe.port sargs) = false ->
   clearable w files (NinePServe.socket sargs) = true) ->
  In (System
        (if NinePServe.daemon sargs
         then NinePServe.pipeline_cmd
                (resolve w (NinePServe.directory sargs))
                (NinePServe.addr_of sargs) +:+ " &"
         else NinePServe.pipeline_cmd
                (resolve w (NinePServe.directory sargs))
                (NinePServe.addr_of sargs)))
     serve_calls.
Proof.
  subst serve_calls. unfold clearable.
  run_paths (NinePServe.do_run sargs) w files.
  all: intros HD HX HS HK; try congruence.
  all: try (injection HX as ->; discriminate).
  all: try (injection HS as ->; discriminate).
  all: try (specialize (HK eq_refl); discriminate HK).
  all: find_in.
Qed.

(** When the auto-start succeeds and the socket and the kernel are there
    after the settle delay, the run workflow spawns the pipeline and runs
    QEMU. *)
Lemma run_reaches_pipeline_and_qemu pid skind kkind :
  truthy_str (NinePRun.serve_dir rargs) = true ->
  files !! resolve w (default "" (NinePRun.serve_dir rargs)) = Some Dir ->
  clearable w files (NinePRun.socket rargs) = true ->
  popen_pid w = Some pid ->
  interrupt_sleep w = false ->
  settle w (delete (NinePRun.socket rargs) files) !! NinePRun.socket rargs
    = Some skind ->
  settle w (delete (NinePRun.socket rargs) files) !! kernel_at rargs w
    = Some kkind ->
  In (Popen
        (NinePRun.pipeline_cmd
           (resolve w (default "" (NinePRun.serve_dir rargs)))
           (NinePRun.socket rargs))
        true true pid)
     run_calls /\
  In (Run (NinePRun.qemu_cmd (NinePRun.memory rargs) (NinePRun.socket rargs)
             (kernel_at rargs w)))
     run_calls.
Proof.
  subst run_calls. unfold clearable, kernel_at.
  run_paths (NinePRun.do_run rargs) w files.
  all: intros HT HD HC HP HI HS HK; try discriminate HT; try discriminate HC.
  all: try discriminate HI; try discriminate HP; try discriminate HD.
  all: repeat match goal with
              | H : files !! _ = None |- _ => rewrite (delete_id _ _ H) in *
              end.
  all: try congruence.
  all: injection HP as ->.
  all: split; find_in.
Qed.

(** C8.  The command lines that the workflows execute carry the address in
    these forms.  The pipeline that the serve workflow hands to
    [os.system] ends in [tcp!*!<port>] when a port other than 0 is given
    and in [unix!<path>] otherwise; the pipeline that the run workflow
    spawns ends in [unix!<path>]; the QEMU command that it runs has
    [-serial unix:<path>]; and the two forms of one Unix endpoint differ. *)
Theorem address_forms pid skind kkind :
  files !! resolve w (NinePServe.directory sargs) = Some Dir ->
  run_ends w ["which"; "9pex"] = Exits 0 ->
  run_ends w ["which"; "9pserve"] = Exits 0 ->
  (truthy_int (NinePServe.port sargs) = false ->
   clearable w files (NinePServe.socket sargs) = true) ->
  truthy_str (NinePRun.serve_dir rargs) = true ->
  files !! resolve w (default "" (NinePRun.serve_dir rargs)) = Some Dir ->
  clearable w files (NinePRun.socket rargs) = true ->
  popen_pid w = Some pid ->
  interrupt_sleep w = false ->
  settle w (delete (NinePRun.socket rargs) files) !! NinePRun.socket rargs
    = Some skind ->
  settle w (delete (NinePRun.socket rargs) files) !! kernel_at rargs w
    = Some kkind ->
  let served addr :=
    "9pex " +:+ resolve w (NinePServe.directory sargs) +:+
    " | 9pserve " +:+ addr +:+ (if NinePServe.daemon sargs then " &" else "") in
  (forall p, NinePServe.port sargs = Some p -> p <> 0%Z ->
             In (System (served ("tcp!*!" +:+ str_int p))) serve_calls) /\
  (truthy_int (NinePServe.port sargs) = false ->
   In (System (served ("unix!" +:+ NinePServe.socket sargs))) serve_calls) /\
  In (Popen
        ("9pex " +:+ resolve w (default "" (NinePRun.serve_dir rargs)) +:+
         " | 9pserve " +:+ "unix!" +:+ NinePRun.socket rargs)
        true true pid)
     run_calls /\
  (exists pre post,
     In (Run (pre ++ ["-serial"; "unix:" +:+ NinePRun.socket rargs] ++ post)%list)
        run_calls) /\
  (forall path, "unix!" +:+ path <> "unix:" +:+ path).
Proof.
  intros HD HX HS HC HT HRD HRC HP HI HSo HKe served.
  pose proof (serve_reaches_os_system HD HX HS HC) as Hsys.
  pose proof (run_reaches_pipeline_and_qemu _ _ _ HT HRD HRC HP HI HSo HKe)
    as [Hpopen Hrun].
  assert (Hcmd : forall addr,
             (if NinePServe.daemon sargs
              then NinePServe.pipeline_cmd
                     (resolve w (NinePServe.directory sargs)) addr +:+ " &"
              else NinePServe.pipeline_cmd
                     (resolve w (NinePServe.directory sargs)) addr)
             = served addr).
  { intros addr. subst served. unfold NinePServe.pipeline_cmd. cbn beta.
    destruct (NinePServe.daemon sargs).
    - rewrite !append_assoc. reflexivity.
    - rewrite append_empty_r. reflexivity. }
  split; [| split; [| split; [| split]]].
  - intros p Hp Hnz. rewrite <- Hcmd.
    replace ("tcp!*!" +:+ str_int p) with (NinePServe.addr_of sargs);
      [exact Hsys |].
    unfold NinePServe.addr_of. rewrite Hp. cbn [truthy_int fmt_int].
    destruct (Z.eqb_spec p 0); [contradiction | reflexivity].
  - intros Hf. rewrite <- Hcmd.
    replace ("unix!" +:+ NinePServe.socket sargs)
      with (NinePServe.addr_of sargs); [exact Hsys |].
    unfold NinePServe.addr_of. rewrite Hf. reflexivity.
  - exact Hpopen.
  - exists ["qemu-system-i386"; "-m"; str_int (NinePRun.memory rargs);
            "-cpu"; "qemu32"; "-device";
            "isa-debug-exit,iobase=0xf4,iosize=0x04"; "-no-reboot";
            "-nographic"], ["-kernel"; kernel_at rargs w].
    exact Hrun.
  - intros path H. cbn in H. discriminate H.
Qed.

End Addresses.

(** ** Both workflows *)

Section Workflows.

Variable rargs : NinePRun.Args.
Variable sargs : NinePServe.Args.
Variable w : World.
Variable files : gmap string Kind.

Let run_calls := calls_of (NinePRun.do_run rargs) w files.
Let serve_calls := calls_of (NinePServe.do_run sargs) w files.

Lemma run_pipelines_lead_groups : spec_pipelines_lead_groups run_calls.
Proof.
  subst run_calls. unfold spec_pipelines_lead_groups.
  run_paths (NinePRun.do_run rargs) w files.
  all: intros e HP HS; in_trace HP; subst e; try discriminate HS.
  all: reflexivity.
Qed.

Lemma serve_pipelines_share_group e :
  In e serve_calls -> starts_pipeline e = true ->
  is_system e = true /\ leads_new_group e = false.
Proof.
  subst serve_calls.
  run_paths (NinePServe.do_run sargs) w files.
  all: intros HP HS; in_trace HP; subst e; try discriminate HS.
  all: split; reflexivity.
Qed.

Lemma serve_keeps_no_handle :
  procs (snd (NinePServe.do_run sargs w (init files))) = ∅.
Proof.
  run_paths (NinePServe.do_run sargs) w files.
  all: reflexivity.
Qed.

(** C6, as the code has it.  The pipeline that the run workflow starts
    leads a process group of its own; the serve workflow, in foreground and
    in daemon mode, starts its pipeline with [os.system], in the caller's
    process group, and keeps no handle to it. *)
Theorem only_run_pipeline_leads_group :
  spec_pipelines_lead_groups run_calls /\
  (forall e, In e serve_calls -> starts_pipeline e = true ->
             is_system e = true /\ leads_new_group e = false) /\
  procs (snd (NinePServe.do_run sargs w (init files))) = ∅.
Proof.
  split; [apply run_pipelines_lead_groups |].
  split; [apply serve_pipelines_share_group | apply serve_keeps_no_handle].
Qed.

Lemma run_settle_delay :
  delay_follows is_popen run_calls = true /\
  count is_sleep run_calls = count is_popen run_calls /\
  probes_after is_popen run_calls <= 2.
Proof.
  subst run_calls.
  run_paths (NinePRun.do_run rargs) w files.
  all: cbn; auto.
Qed.

Lemma daemon_settle_delay :
  NinePServe.daemon sargs = true ->
  delay_follows is_system serve_calls = true /\
  count is_sleep serve_calls = count is_system serve_calls /\
  probes_after is_system serve_calls = 0.
Proof.
  subst serve_calls.
  run_paths (NinePServe.do_run sargs) w files.
  all: intros HD; try discriminate HD.
  all: cbn; auto.
Qed.

(** A serve directory that is a directory, a socket path that can be
    cleared and a spawn that succeeds: the run workflow spawns the
    pipeline, once. *)
Lemma run_spawns_once pid :
  truthy_str (NinePRun.serve_dir rargs) = true ->
  files !! resolve w (default "" (NinePRun.serve_dir rargs)) = Some Dir ->
  clearable w files (NinePRun.socket rargs) = true ->
  popen_pid w = Some pid ->
  count is_popen run_calls = 1.
Proof.
  subst run_calls. unfold clearable.
  run_paths (NinePRun.do_run rargs) w files.
  all: intros HT HD HC HP; try congruence.
  all: reflexivity.
Qed.

(** With its checks passed, the serve workflow calls [os.system] once. *)
Lemma serve_spawns_once :
  files !! resolve w (NinePServe.directory sargs) = Some Dir ->
  run_ends w ["which"; "9pex"] = Exits 0 ->
  run_ends w ["which"; "9pserve"] = Exits 0 ->
  (truthy_int (NinePServe.port sargs) = false ->
   clearable w files (NinePServe.socket sargs) = true) ->
  count is_system serve_calls = 1.
Proof.
  subst serve_calls. unfold clearable.
  run_paths (NinePServe.do_run sargs) w files.
  all: intros HD HX HS HC; try congruence.
  all: exit_codes; try congruence.
  all: try (specialize (HC eq_refl); discriminate HC).
  all: reflexivity.
Qed.

(** C9.  When the run workflow auto-starts the server (the serve directory
    is a directory, the socket path can be cleared, the spawn succeeds) it
    spawns the pipeline once and sleeps once, 500 ms, immediately after the
    spawn: no other sleep, and at most two filesystem probes afterwards
    (the socket check and the kernel check, once each).  When the serve
    workflow runs in daemon mode with its checks passed, it calls
    [os.system] once and sleeps once, 500 ms, immediately after it, and
    probes nothing afterwards. *)
Theorem fixed_settle_delay pid :
  truthy_str (NinePRun.serve_dir rargs) = true ->
  files !! resolve w (default "" (NinePRun.serve_dir rargs)) = Some Dir ->
  clearable w files (NinePRun.socket rargs) = true ->
  popen_pid w = Some pid ->
  NinePServe.daemon sargs = true ->
  files !! resolve w (NinePServe.directory sargs) = Some Dir ->
  run_ends w ["which"; "9pex"] = Exits 0 ->
  run_ends w ["which"; "9pserve"] = Exits 0 ->
  (truthy_int (NinePServe.port sargs) = false ->
   clearable w files (NinePServe.socket sargs) = true) ->
  (count is_popen run_calls = 1 /\
   count is_sleep run_calls = 1 /\
   delay_follows is_popen run_calls = true /\
   probes_after is_popen run_calls <= 2) /\
  (count is_system serve_calls = 1 /\
   count is_sleep serve_calls = 1 /\
   delay_follows is_system serve_calls = true /\
   probes_after is_system serve_calls = 0).
Proof.
  intros HT HRD HRC HP HDm HD HX HS HC.
  pose proof run_settle_delay as [R1 [R2 R3]].
  pose proof (daemon_settle_delay HDm) as [S1 [S2 S3]].
  pose proof (run_spawns_once _ HT HRD HRC HP) as R0.
  pose proof (serve_spawns_once HD HX HS HC) as S0.
  rewrite R0 in R2. rewrite S0 in S2.
  repeat split; assumption.
Qed.

(** C10.  Changing the board selector changes nothing of what [do_run]
    does but the text of the message printed when the kernel is missing:
    the result and every other call are the same, the QEMU command among
    them, whose program is always qemu-system-i386 and whose other
    arguments come from the memory size, the socket path and the kernel
    path. *)
Theorem board_only_in_kernel_hint (b : string) :
  result_of (NinePRun.do_run (set_board b rargs)) w files =
    result_of (NinePRun.do_run rargs) w files /\
  map mask_kernel_hint (calls_of (NinePRun.do_run (set_board b rargs)) w files) =
    map mask_kernel_hint run_calls /\
  run_argvs (calls_of (NinePRun.do_run (set_board b rargs)) w files) =
    run_argvs run_calls /\
  Forall (fun argv =>
            hd "" argv = "qemu-system-i386" /\
            exists kernel,
              argv = NinePRun.qemu_cmd
                       (NinePRun.memory rargs) (NinePRun.socket rargs) kernel)
         (run_argvs run_calls).
Proof.
  subst run_calls. unfold result_of, calls_of.
  destruct (NinePRun.do_run (set_board b rargs) w (init files)) as [r' s'] eqn:E'.
  revert E'.
  run_paths (NinePRun.do_run rargs) w files.
  all: intros E'; injection E' as <- <-; reduce_state.
  all: cbn [map mask_kernel_hint run_argvs flat_map app].
  all: split; [reflexivity |]; split; [reflexivity |]; split; [reflexivity |].
  all: repeat match goal with
              | |- Forall _ [] => constructor
              | |- Forall _ (_ :: _) =>
                  constructor; [split; [reflexivity | eexists; reflexivity] |]
              end.
Qed.

End Workflows.

(** ** The theorems at work on concrete sessions *)

(** [west 9p-run --serve-dir /srv] when 9pserve has not bound the socket in
    half a second: the session dies, the shell alone was signalled, its
    process group was not. *)
Lemma precondition_failure_skips_group_signal_witness :
  In (Popen "9pex /srv | 9pserve unix!/tmp/9p.sock" true true 4242)
     (calls_of (NinePRun.do_run Scenario.run_serving)
        Scenario.never_binds Scenario.files) /\
  result_of (NinePRun.do_run Scenario.run_serving)
    Scenario.never_binds Scenario.files = Raise (SystemExit 1) /\
  group_signals 4242
    (calls_of (NinePRun.do_run Scenario.run_serving)
       Scenario.never_binds Scenario.files) = 0 /\
  process_signals 4242
    (calls_of (NinePRun.do_run Scenario.run_serving)
       Scenario.never_binds Scenario.files) = 1.
Proof.
  assert (HP : In (Popen "9pex /srv | 9pserve unix!/tmp/9p.sock" true true 4242)
                  (calls_of (NinePRun.do_run Scenario.run_serving)
                     Scenario.never_binds Scenario.files))
    by (vm_compute; find_in).
  assert (HR : result_of (NinePRun.do_run Scenario.run_serving)
                 Scenario.never_binds Scenario.files = Raise (SystemExit 1))
    by (vm_compute; reflexivity).
  split; [exact HP |]. split; [exact HR |].
  exact (precondition_failure_skips_group_signal
           Scenario.run_serving Scenario.never_binds Scenario.files
           _ _ _ _ HP HR).
Defined.

(** The same command interrupted during the settle delay: the interrupt
    leaves [do_run] unhandled, and no signal was sent. *)
Lemma settle_interrupt_unhandled_witness :
  In (Popen "9pex /srv | 9pserve unix!/tmp/9p.sock" true true 4242)
     (calls_of (NinePRun.do_run Scenario.run_serving)
        Scenario.ctrl_c_while_settling Scenario.files) /\
  interrupt_sleep Scenario.ctrl_c_while_settling = true /\
  result_of (NinePRun.do_run Scenario.run_serving)
    Scenario.ctrl_c_while_settling Scenario.files = Raise KeyboardInterrupt /\
  signals_sent
    (calls_of (NinePRun.do_run Scenario.run_serving)
       Scenario.ctrl_c_while_settling Scenario.files) = 0.
Proof.
  assert (HP : In (Popen "9pex /srv | 9pserve unix!/tmp/9p.sock" true true 4242)
                  (calls_of (NinePRun.do_run Scenario.run_serving)
                     Scenario.ctrl_c_while_settling Scenario.files))
    by (vm_compute; find_in).
  split; [exact HP |]. split; [reflexivity |].
  exact (settle_interrupt_unhandled
           Scenario.run_serving Scenario.ctrl_c_while_settling Scenario.files
           _ _ _ _ HP eq_refl).
Defined.

(** C2 refuted: QEMU exits with code 1 and the session's status is not 1. *)
Lemma exit_code_not_forwarded :
  ~ spec_forwards_exit_code
      Scenario.run_serving (Scenario.consumer_exits 1) Scenario.files.
Proof.
  intros H.
  specialize (H Scenario.qemu 1%Z).
  assert (HS : exit_status
                 (result_of (NinePRun.do_run Scenario.run_serving)
                    (Scenario.consumer_exits 1) Scenario.files) = Some 1%Z).
  { apply H; [vm_compute; auto | reflexivity]. }
  vm_compute in HS. discriminate HS.
Qed.

(** QEMU exits with code 3; the session returns normally, status 0. *)
Lemma consumer_exit_code_discarded_witness :
  In Scenario.qemu
     (run_argvs (calls_of (NinePRun.do_run Scenario.run_serving)
                   (Scenario.consumer_exits 3) Scenario.files)) /\
  run_ends (Scenario.consumer_exits 3) Scenario.qemu = Exits 3 /\
  result_of (NinePRun.do_run Scenario.run_serving)
    (Scenario.consumer_exits 3) Scenario.files = Ok tt /\
  exit_status
    (result_of (NinePRun.do_run Scenario.run_serving)
       (Scenario.consumer_exits 3) Scenario.files) = Some 0%Z.
Proof.
  assert (HR : In Scenario.qemu
                  (run_argvs (calls_of (NinePRun.do_run Scenario.run_serving)
                                (Scenario.consumer_exits 3) Scenario.files)))
    by (vm_compute; auto).
  split; [exact HR |]. split; [reflexivity |].
  exact (consumer_exit_code_discarded
           Scenario.run_serving (Scenario.consumer_exits 3) Scenario.files
           Scenario.qemu 3%Z HR eq_refl).
Defined.

(** C4 refuted: [west 9p-serve -p -1 /srv] starts the pipeline. *)
Lemma negative_port_is_served :
  ~ spec_rejects_invalid_endpoint
      (Scenario.serve (Some (-1)%Z) false) (Scenario.consumer_exits 0)
      Scenario.files.
Proof.
  intros H. destruct H as [_ HC]; [reflexivity |].
  vm_compute in HC. discriminate HC.
Qed.

(** The empty socket path is served as well. *)
Example empty_socket_is_served :
  In (System "9pex /srv | 9pserve unix!")
     (calls_of
        (NinePServe.do_run
           {| NinePServe.directory := "/srv"; NinePServe.socket := "";
              NinePServe.port := None; NinePServe.daemon := false |})
        (Scenario.consumer_exits 0) Scenario.files).
Proof. vm_compute. find_in. Qed.

Lemma endpoint_not_validated_witness :
  Scenario.files !! "/srv" = Some Dir /\
  In (System "9pex /srv | 9pserve tcp!*!-1")
     (calls_of (NinePServe.do_run (Scenario.serve (Some (-1)%Z) false))
        (Scenario.consumer_exits 0) Scenario.files).
Proof.
  assert (HD : Scenario.files !! "/srv" = Some Dir) by (vm_compute; reflexivity).
  assert (HK : truthy_int (NinePServe.port (Scenario.serve (Some (-1)%Z) false))
               = false ->
               clearable (Scenario.consumer_exits 0) Scenario.files
                 (NinePServe.socket (Scenario.serve (Some (-1)%Z) false)) = true)
    by (intros H; discriminate H).
  split; [exact HD |].
  exact (proj1 (endpoint_not_validated
                  (Scenario.serve (Some (-1)%Z) false)
                  (Scenario.consumer_exits 0) Scenario.files
                  HD eq_refl eq_refl HK)).
Defined.

(** [west 9p-run --serve-dir /srv] on a machine without plan9port: the
    pipeline is spawned all the same. *)
Lemma run_spawns_without_tool_check_witness :
  run_ends Scenario.no_tools ["which"; "9pex"] = Exits 1 /\
  run_ends Scenario.no_tools ["which"; "9pserve"] = Exits 1 /\
  In (Popen "9pex /srv | 9pserve unix!/tmp/9p.sock" true true 4242)
     (calls_of (NinePRun.do_run Scenario.run_serving)
        Scenario.no_tools Scenario.files).
Proof.
  split; [reflexivity |]. split; [reflexivity |].
  assert (HD : Scenario.files !! "/srv" = Some Dir) by (vm_compute; reflexivity).
  assert (HK : clearable Scenario.no_tools Scenario.files "/tmp/9p.sock" = true)
    by (vm_compute; reflexivity).
  exact (proj1 (run_spawns_without_tool_check
                  Scenario.run_serving Scenario.no_tools Scenario.files 4242
                  eq_refl HD HK eq_refl)).
Defined.

(** C6 refuted: [west 9p-serve /srv] starts its pipeline with [os.system]. *)
Lemma serve_pipeline_shares_group :
  ~ spec_pipelines_lead_groups
      (calls_of (NinePServe.do_run (Scenario.serve None false))
         (Scenario.consumer_exits 0) Scenario.files).
Proof.
  intros H.
  specialize (H (System "9pex /srv | 9pserve unix!/tmp/9p.sock")).
  assert (HL : leads_new_group
                 (System "9pex /srv | 9pserve unix!/tmp/9p.sock") = true).
  { apply H; [vm_compute; find_in | reflexivity]. }
  discriminate HL.
Qed.

(** [west 9p-run] with no server running. *)
Lemma socket_missing_dies_before_consumer_witness :
  result_of (NinePRun.auto_start Scenario.run_plain)
    (Scenario.consumer_exits 0) Scenario.files = Ok None /\
  result_of (NinePRun.do_run Scenario.run_plain)
    (Scenario.consumer_exits 0) Scenario.files = Raise (SystemExit 1) /\
  subprocess_runs
    (calls_of (NinePRun.do_run Scenario.run_plain)
       (Scenario.consumer_exits 0) Scenario.files) = 0.
Proof.
  assert (HA : result_of (NinePRun.auto_start Scenario.run_plain)
                 (Scenario.consumer_exits 0) Scenario.files = Ok None)
    by reflexivity.
  assert (HS : fs (snd (NinePRun.auto_start Scenario.run_plain
                          (Scenario.consumer_exits 0) (init Scenario.files)))
               !! "/tmp/9p.sock" = None)
    by (vm_compute; reflexivity).
  split; [exact HA |].
  pose proof (socket_missing_dies_before_consumer
                Scenario.run_plain (Scenario.consumer_exits 0) Scenario.files
                None HA HS) as [HR [_ HC]].
  split; [exact HR | exact HC].
Defined.

(** [west 9p-serve -p 5640 /srv], [west 9p-serve /srv] and
    [west 9p-run --serve-dir /srv]. *)
Lemma address_forms_witness :
  In (System "9pex /srv | 9pserve tcp!*!5640")
     (calls_of (NinePServe.do_run (Scenario.serve (Some 5640%Z) false))
        (Scenario.consumer_exits 0) Scenario.files) /\
  In (System "9pex /srv | 9pserve unix!/tmp/9p.sock")
     (calls_of (NinePServe.do_run (Scenario.serve None false))
        (Scenario.consumer_exits 0) Scenario.files) /\
  In (Popen "9pex /srv | 9pserve unix!/tmp/9p.sock" true true 4242)
     (calls_of (NinePRun.do_run Scenario.run_serving)
        (Scenario.consumer_exits 0) Scenario.files) /\
  In (Run ["qemu-system-i386"; "-m"; "32"; "-cpu"; "qemu32"; "-device";
           "isa-debug-exit,iobase=0xf4,iosize=0x04"; "-no-reboot";
           "-nographic"; "-serial"; "unix:/tmp/9p.sock"; "-kernel";
           "build/zephyr/zephyr.elf"])
     (calls_of (NinePRun.do_run Scenario.run_serving)
        (Scenario.consumer_exits 0) Scenario.files).
Proof.
  assert (HD : Scenario.files !! "/srv" = Some Dir) by (vm_compute; reflexivity).
  assert (HC : clearable (Scenario.consumer_exits 0) Scenario.files
                 "/tmp/9p.sock" = true) by (vm_compute; reflexivity).
  assert (HS : settle (Scenario.consumer_exits 0)
                 (delete "/tmp/9p.sock" Scenario.files) !! "/tmp/9p.sock"
               = Some Socket) by (vm_compute; reflexivity).
  assert (HK : settle (Scenario.consumer_exits 0)
                 (delete "/tmp/9p.sock" Scenario.files)
               !! kernel_at Scenario.run_serving (Scenario.consumer_exits 0)
               = Some File) by (vm_compute; reflexivity).
  pose proof (address_forms
                (Scenario.serve (Some 5640%Z) false) Scenario.run_serving
                (Scenario.consumer_exits 0) Scenario.files 4242 Socket File
                HD eq_refl eq_refl (fun H => HC) eq_refl HD HC eq_refl eq_refl
                HS HK) as [Htcp [_ [Hpopen [_ _]]]].
  pose proof (address_forms
                (Scenario.serve None false) Scenario.run_serving
                (Scenario.consumer_exits 0) Scenario.files 4242 Socket File
                HD eq_refl eq_refl (fun H => HC) eq_refl HD HC eq_refl eq_refl
                HS HK) as [_ [Hunix [_ [_ _]]]].
  pose proof (proj2 (run_reaches_pipeline_and_qemu
                       Scenario.run_serving (Scenario.consumer_exits 0)
                       Scenario.files 4242 Socket File
                       eq_refl HD HC eq_refl eq_refl HS HK)) as Hrun.
  split; [exact (Htcp 5640%Z eq_refl ltac:(discriminate)) |].
  split; [exact (Hunix eq_refl) |].
  split; [exact Hpopen | exact Hrun].
Defined.

(** [west 9p-run --serve-dir /srv] and [west 9p-serve -d /srv]. *)
Lemma fixed_settle_delay_witness :
  count is_popen
    (calls_of (NinePRun.do_run Scenario.run_serving)
       (Scenario.consumer_exits 0) Scenario.files) = 1 /\
  count is_sleep
    (calls_of (NinePRun.do_run Scenario.run_serving)
       (Scenario.consumer_exits 0) Scenario.files) = 1 /\
  delay_follows is_popen
    (calls_of (NinePRun.do_run Scenario.run_serving)
       (Scenario.consumer_exits 0) Scenario.files) = true /\
  count is_system
    (calls_of (NinePServe.do_run (Scenario.serve None true))
       (Scenario.consumer_exits 0) Scenario.files) = 1 /\
  count is_sleep
    (calls_of (NinePServe.do_run (Scenario.serve None true))
       (Scenario.consumer_exits 0) Scenario.files) = 1 /\
  delay_follows is_system
    (calls_of (NinePServe.do_run (Scenario.serve None true))
       (Scenario.consumer_exits 0) Scenario.files) = true.
Proof.
  assert (HD : Scenario.files !! "/srv" = Some Dir) by (vm_compute; reflexivity).
  assert (HC : clearable (Scenario.consumer_exits 0) Scenario.files
                 "/tmp/9p.sock" = true) by (vm_compute; reflexivity).
  pose proof (fixed_settle_delay
                Scenario.run_serving (Scenario.serve None true)
                (Scenario.consumer_exits 0) Scenario.files 4242
                eq_refl HD HC eq_refl eq_refl HD eq_refl eq_refl (fun _ => HC))
    as [[R1 [R2 [R3 _]]] [S1 [S2 [S3 _]]]].
  repeat split; assumption.
Defined.

(** * Further properties of the two commands *)

(** ** The run workflow *)

Section RunFurther.

Variable args : NinePRun.Args.
Variable w : World.
Variable files : gmap string Kind.

Let result := result_of (NinePRun.do_run args) w files.
Let calls := calls_of (NinePRun.do_run args) w files.
Let final := snd (NinePRun.do_run args w (init files)).

(** Without a serve directory the run workflow uses the server that is
    there and leaves it alone: it removes no file, starts no pipeline, does
    not wait for one and signals no process group, and it sends no SIGTERM;
    the filesystem and the process table are as it found them.  The one
    signal it can send is the SIGKILL of [subprocess.run] to its own QEMU
    child, when Ctrl+C finds that child still alive. *)
Theorem reused_server_is_left_alone :
  truthy_str (NinePRun.serve_dir args) = false ->
  count is_server_call calls = 0 /\
  count is_sigterm calls = 0 /\
  fs final = files /\
  procs final = ∅ /\
  Forall (fun e => match e with
                   | Kill pid sig => pid = run_pid w /\ sig = SIGKILL
                   | _ => True
                   end)
         calls.
Proof.
  subst result calls final.
  run_paths (NinePRun.do_run args) w files.
  all: intros HT; try discriminate HT.
  all: unfold alloc_pid; rewrite ?lookup_empty.
  all: repeat split; try reflexivity.
  all: repeat constructor.
Qed.

(** QEMU is started exactly when both the socket and the kernel exist at
    the checks, then once, on the command line built from the memory size,
    the socket and the kernel path under the build directory. *)
Theorem consumer_runs_iff_ready server_proc :
  fst (at_launch args w files) = Ok server_proc ->
  run_argvs calls =
    match fs (snd (at_launch args w files)) !! NinePRun.socket args,
          fs (snd (at_launch args w files)) !! kernel_at args w with
    | Some _, Some _ =>
        [NinePRun.qemu_cmd (NinePRun.memory args) (NinePRun.socket args)
           (kernel_at args w)]
    | _, _ => []
    end.
Proof.
  subst result calls final. unfold at_launch, kernel_at.
  run_paths (NinePRun.do_run args) w files.
  all: intros HA; try discriminate HA.
  all: reflexivity.
Qed.

(** With the socket there and the kernel missing, [do_run] dies with the
    message that names the kernel path and the build command for the
    board, and QEMU is not started. *)
Theorem kernel_missing_dies_before_consumer server_proc kind :
  fst (at_launch args w files) = Ok server_proc ->
  fs (snd (at_launch args w files)) !! NinePRun.socket args = Some kind ->
  fs (snd (at_launch args w files)) !! kernel_at args w = None ->
  result = Raise (SystemExit 1) /\
  last calls =
    Some (Err ("Kernel not found: " +:+ kernel_at args w +:+ nl +:+
               "Build first with: west build -b " +:+ NinePRun.board args +:+
               " 9p4z/samples/9p_client")) /\
  subprocess_runs calls = 0.
Proof.
  subst result calls final. unfold at_launch, kernel_at.
  run_paths (NinePRun.do_run args) w files.
  all: intros HA HS HK; try discriminate HA; try congruence.
  all: count_events; auto.
Qed.

(** A serve directory that is not a directory ends [do_run] at once: it
    dies with the message that names the resolved path, having only
    probed that path; a socket that exists is not removed. *)
Theorem serve_dir_not_found_dies_untouched :
  truthy_str (NinePRun.serve_dir args) = true ->
  files !! resolve w (default "" (NinePRun.serve_dir args)) <> Some Dir ->
  result = Raise (SystemExit 1) /\
  calls =
    [Stat (resolve w (default "" (NinePRun.serve_dir args)));
     Err ("Serve directory not found: " +:+
          resolve w (default "" (NinePRun.serve_dir args)))] /\
  fs final = files.
Proof.
  subst result calls final.
  run_paths (NinePRun.do_run args) w files.
  all: intros HT HD; try discriminate HT; try congruence.
  all: auto.
Qed.

(** When the run workflow has started its own server, whatever was at the
    socket path before has been removed: the filesystem that the socket
    check sees is the one the settle delay has made of the filesystem
    without that path, so only a socket that appeared during the delay
    can pass the check. *)
Theorem auto_start_checks_a_fresh_socket pid :
  fst (at_launch args w files) = Ok (Some pid) ->
  fs (snd (at_launch args w files)) =
    settle w (delete (NinePRun.socket args) files) /\
  procs (snd (at_launch args w files)) !! pid = Some pid /\
  (settle w (delete (NinePRun.socket args) files) !! NinePRun.socket args = None ->
   result = Raise (SystemExit 1) /\ subprocess_runs calls = 0).
Proof.
  subst result calls final. unfold at_launch.
  run_paths (NinePRun.do_run args) w files.
  all: intros HA; try discriminate HA.
  all: injection HA as <-.
  all: repeat match goal with
              | H : files !! _ = None |- _ =>
                  rewrite (delete_id _ _ H) in *
              end.
  all: rewrite ?lookup_insert_eq.
  all: split; [reflexivity |]; split; [reflexivity |].
  all: intros HN; try congruence.
  all: count_events; auto.
Qed.

(** When QEMU cannot be started the error is not swallowed, and the server
    that the session started is stopped all the same: [do_run] ends with
    the [OSError], after one signal to the group of each pipeline it
    spawned and none to anybody else. *)
Theorem consumer_spawn_failure_propagates argv :
  In argv (run_argvs calls) ->
  run_ends w argv = SpawnFails ->
  result = Raise (OSError "FileNotFoundError") /\
  signals_sent calls = count is_popen calls /\
  count (fun e => match e with Kill _ _ => true | _ => false end) calls = 0.
Proof.
  subst result calls final.
  run_paths (NinePRun.do_run args) w files.
  all: intros HR HE; in_trace HR; subst argv; try congruence.
  all: cbn; auto.
Qed.

(** When [subprocess.Popen] itself fails, [do_run] ends with its error
    before any delay, check or consumer; the socket path has already been
    cleared. *)
Theorem pipeline_spawn_failure_aborts :
  truthy_str (NinePRun.serve_dir args) = true ->
  files !! resolve w (default "" (NinePRun.serve_dir args)) = Some Dir ->
  clearable w files (NinePRun.socket args) = true ->
  popen_pid w = None ->
  result = Raise (OSError "Popen") /\
  count is_sleep calls = 0 /\
  subprocess_runs calls = 0 /\
  signals_sent calls = 0 /\
  fs final !! NinePRun.socket args = None.
Proof.
  subst result calls final. unfold clearable.
  run_paths (NinePRun.do_run args) w files.
  all: intros HT HD HK HP; try discriminate HT; try congruence.
  all: rewrite ?lookup_delete_eq; cbn; auto.
Qed.

(** A socket path that is a directory cannot be cleared: [os.unlink]
    raises, and [do_run] ends with that error before any pipeline is
    started. *)
Theorem socket_directory_stops_auto_start :
  truthy_str (NinePRun.serve_dir args) = true ->
  files !! resolve w (default "" (NinePRun.serve_dir args)) = Some Dir ->
  files !! NinePRun.socket args = Some Dir ->
  (exists what, result = Raise (OSError what)) /\
  count takes_charge calls = 0 /\
  subprocess_runs calls = 0.
Proof.
  subst result calls final.
  run_paths (NinePRun.do_run args) w files.
  all: intros HT HD HK; try discriminate HT; try congruence.
  all: split; [eexists; reflexivity | cbn; auto].
Qed.

(** An empty [--serve-dir] or [--build-dir] is the same as none. *)
Theorem empty_options_are_absent (s : State) :
  NinePRun.do_run (set_serve_dir (Some "") args) w s =
    NinePRun.do_run (set_serve_dir None args) w s /\
  NinePRun.do_run (set_build_dir (Some "") args) w s =
    NinePRun.do_run (set_build_dir None args) w s.
Proof. split; reflexivity. Qed.

End RunFurther.

(** ** The serve workflow *)

Section ServeFurther.

Variable args : NinePServe.Args.
Variable w : World.
Variable files : gmap string Kind.

Let result := result_of (NinePServe.do_run args) w files.
Let calls := calls_of (NinePServe.do_run args) w files.
Let final := snd (NinePServe.do_run args w (init files)).

(** The directory is checked first: when it is not a directory [do_run]
    dies with the message that names the resolved path, and has looked up
    no tool. *)
Theorem serve_directory_missing :
  files !! resolve w (NinePServe.directory args) <> Some Dir ->
  result = Raise (SystemExit 1) /\
  calls =
    [Stat (resolve w (NinePServe.directory args));
     Err ("Directory not found: " +:+ resolve w (NinePServe.directory args))].
Proof.
  subst result calls final.
  run_paths (NinePServe.do_run args) w files.
  all: intros HD; try congruence.
  all: auto.
Qed.

(** 9pex is looked up before 9pserve: when [which 9pex] fails [do_run]
    dies with the install hint for 9pex, and 9pserve is not looked up. *)
Theorem serve_exporter_missing c :
  files !! resolve w (NinePServe.directory args) = Some Dir ->
  run_ends w ["which"; "9pex"] = Exits c ->
  c <> 0%Z ->
  result = Raise (SystemExit 1) /\
  last calls =
    Some (Err "9pex not found. Install plan9port (brew install plan9port)") /\
  run_argvs calls = [["which"; "9pex"]] /\
  count takes_charge calls = 0.
Proof.
  subst result calls final.
  run_paths (NinePServe.do_run args) w files.
  all: intros HD HX Hc; try congruence.
  all: exit_codes; try congruence.
  all: cbn; auto.
Qed.

(** With 9pex found and [which 9pserve] failing, [do_run] dies with the
    install hint for 9pserve and starts nothing. *)
Theorem serve_server_missing c :
  files !! resolve w (NinePServe.directory args) = Some Dir ->
  run_ends w ["which"; "9pex"] = Exits 0 ->
  run_ends w ["which"; "9pserve"] = Exits c ->
  c <> 0%Z ->
  result = Raise (SystemExit 1) /\
  last calls =
    Some (Err "9pserve not found. Install plan9port (brew install plan9port)") /\
  run_argvs calls = [["which"; "9pex"]; ["which"; "9pserve"]] /\
  count takes_charge calls = 0.
Proof.
  subst result calls final.
  run_paths (NinePServe.do_run args) w files.
  all: intros HD HX HS Hc; try congruence.
  all: exit_codes; try congruence.
  all: cbn; auto.
Qed.

(** With a TCP port the serve workflow leaves the filesystem alone: it
    removes nothing and probes no path but the directory to serve. *)
Theorem tcp_mode_leaves_socket_alone :
  truthy_int (NinePServe.port args) = true ->
  count is_unlink calls = 0 /\
  (forall p, In (Stat p) calls -> p = resolve w (NinePServe.directory args)).
Proof.
  subst result calls final.
  run_paths (NinePServe.do_run args) w files.
  all: intros HT; try discriminate HT.
  all: split; [reflexivity |].
  all: intros p HP; in_trace HP; injection HP as <-; reflexivity.
Qed.

(** On a Unix socket, with its checks passed and a socket path that holds
    nothing or something that [os.unlink] removes, the serve workflow
    removes what is at the socket path before it starts the pipeline, and
    only then: one [os.unlink] when the path exists, none when it does
    not, none after the pipeline has been started; the pipeline is started
    once. *)
Theorem unix_mode_clears_stale_socket :
  truthy_int (NinePServe.port args) = false ->
  files !! resolve w (NinePServe.directory args) = Some Dir ->
  run_ends w ["which"; "9pex"] = Exits 0 ->
  run_ends w ["which"; "9pserve"] = Exits 0 ->
  clearable w files (NinePServe.socket args) = true ->
  filter_unlinks calls =
    match files !! NinePServe.socket args with
    | Some _ => [NinePServe.socket args]
    | None => []
    end /\
  none_after is_system is_unlink calls = true /\
  count is_system calls = 1.
Proof.
  subst result calls final. unfold clearable.
  run_paths (NinePServe.do_run args) w files.
  all: intros HT HD HX HS HK; try discriminate HT; try congruence.
  all: exit_codes; try congruence.
  all: cbn; auto.
Qed.

(** A socket path that is a directory cannot be cleared: [os.unlink]
    raises and no pipeline is started. *)
Theorem socket_directory_stops_serve :
  truthy_int (NinePServe.port args) = false ->
  files !! resolve w (NinePServe.directory args) = Some Dir ->
  run_ends w ["which"; "9pex"] = Exits 0 ->
  run_ends w ["which"; "9pserve"] = Exits 0 ->
  files !! NinePServe.socket args = Some Dir ->
  (exists what, result = Raise (OSError what)) /\
  count takes_charge calls = 0.
Proof.
  subst result calls final.
  run_paths (NinePServe.do_run args) w files.
  all: intros HT HD HX HS HK; try discriminate HT; try congruence.
  all: exit_codes; try congruence.
  all: split; [eexists; reflexivity | cbn; auto].
Qed.

(** The serve workflow does not read the status that [os.system] returns:
    whatever the shell's status, [do_run] returns normally, and in daemon
    mode it reports that the server was started. *)
Theorem pipeline_status_ignored cmd c :
  In (System cmd) calls ->
  system_ends w cmd = Exits c ->
  interrupt_sleep w = false ->
  result = Ok tt /\
  (NinePServe.daemon args = true ->
   In (Print "Server started in background") calls /\
   last calls =
     Some (if truthy_int (NinePServe.port args)
           then Print "Server started in background"
           else Print ("Socket: " +:+ NinePServe.socket args))).
Proof.
  subst result calls final.
  run_paths (NinePServe.do_run args) w files.
  all: intros HP HE HI; try discriminate HI; in_trace HP.
  all: injection HP as <-; try congruence.
  all: split; [reflexivity |].
  all: intros HD; try discriminate HD.
  all: split; [find_in | reflexivity].
Qed.

(** [-p 0] is the same as no port: the Unix socket is served. *)
Theorem port_zero_is_absent (s : State) :
  NinePServe.do_run (set_port (Some 0%Z) args) w s =
    NinePServe.do_run (set_port None args) w s.
Proof. reflexivity. Qed.

End ServeFurther.

(** ** What is printed is what is run *)

Section Echo.

Variable rargs : NinePRun.Args.
Variable sargs : NinePServe.Args.
Variable w : World.
Variable files : gmap string Kind.

Let run_calls := calls_of (NinePRun.do_run rargs) w files.
Let serve_calls := calls_of (NinePServe.do_run sargs) w files.

Ltac has_same_head x y :=
  lazymatch x with
  | Print _ => lazymatch y with Print _ => idtac end
  end.

Ltac with_index x l n k :=
  lazymatch l with
  | ?y :: ?rest =>
      tryif first [constr_eq x y | has_same_head x y; unify x y]
      then k n else with_index x rest constr:(S n) k
  end.

Ltac find_positions :=
  lazymatch goal with
  | |- printed_before ?line ?e ?tr =>
      with_index (Print line) tr 0 ltac:(fun i =>
        with_index e tr 0 ltac:(fun j =>
          exists i, j; split; [lia | split; reflexivity]))
  end.

Lemma run_echoes_command argv :
  In argv (run_argvs run_calls) ->
  printed_before ("Command: " +:+ join " " argv) (Run argv) run_calls.
Proof.
  subst run_calls.
  run_paths (NinePRun.do_run rargs) w files.
  all: intros HR; in_trace HR; subst argv; find_positions.
Qed.

Lemma serve_echoes_command cmd :
  In (System cmd) serve_calls ->
  printed_before ("Command: " +:+ cmd) (System cmd) serve_calls.
Proof.
  subst serve_calls.
  run_paths (NinePServe.do_run sargs) w files.
  all: intros HP; in_trace HP; injection HP as <-; find_positions.
Qed.

(** The QEMU command line that the run workflow runs and the shell
    pipeline that the serve workflow hands to [os.system] have each been
    printed before, after [Command: ], as they are executed: the QEMU
    arguments joined by spaces, the pipeline with its [ &] in daemon
    mode. *)
Theorem commands_are_echoed :
  Forall (fun argv =>
            printed_before ("Command: " +:+ join " " argv) (Run argv) run_calls)
         (run_argvs run_calls) /\
  Forall (fun e => match e with
                   | System cmd =>
                       printed_before ("Command: " +:+ cmd) (System cmd)
                         serve_calls
                   | _ => True
                   end)
         serve_calls.
Proof.
  split.
  - apply List.Forall_forall. intros argv. apply run_echoes_command.
  - apply List.Forall_forall. intros e HE. destruct e; try exact I.
    now apply serve_echoes_command.
Qed.

End Echo.

(** ** Signals *)

Section Signals.

Variable rargs : NinePRun.Args.
Variable sargs : NinePServe.Args.
Variable w : World.
Variable files : gmap string Kind.

Let run_calls := calls_of (NinePRun.do_run rargs) w files.
Let run_final := snd (NinePRun.do_run rargs w (init files)).
Let serve_calls := calls_of (NinePServe.do_run sargs) w files.

Lemma run_sends_one_sigterm :
  count is_sigterm run_calls <= 1 /\
  signals_sent run_calls <= 2 /\
  Forall (fun e => match e with
                   | Killpg _ sig => sig = SIGTERM
                   | Kill pid sig =>
                       sig = SIGTERM \/
                       (sig = SIGKILL /\ procs run_final !! pid = None)
                   | _ => True
                   end)
         run_calls.
Proof.
  subst run_calls run_final.
  run_paths (NinePRun.do_run rargs) w files.
  all: split; [cbn; lia |]; split; [cbn; lia |].
  all: repeat match goal with
              | |- Forall _ [] => constructor
              | |- Forall _ (_ :: _) => constructor
              | |- True => exact I
              | |- _ = _ => reflexivity
              | |- _ \/ _ =>
                  first [ left; reflexivity
                        | right; split; [reflexivity | apply alloc_pid_fresh] ]
              end.
Qed.

Lemma serve_sends_no_sigterm :
  count is_sigterm serve_calls = 0 /\
  Forall (fun e => match e with
                   | Killpg _ _ => False
                   | Kill _ sig => sig = SIGKILL
                   | _ => True
                   end)
         serve_calls.
Proof.
  subst serve_calls.
  run_paths (NinePServe.do_run sargs) w files.
  all: split; [reflexivity |].
  all: repeat match goal with
              | |- Forall _ [] => constructor
              | |- Forall _ (_ :: _) => constructor
              | |- True => exact I
              | |- _ = _ => reflexivity
              end.
Qed.

(** A session of the run workflow sends at most one SIGTERM, to the shell
    of its pipeline or to its group, and never a second one; the only other
    signal it can send is the SIGKILL of [subprocess.run] to its own child,
    which is no process of the session's table, so the pipeline is never
    sent SIGKILL.  The serve workflow sends no SIGTERM and signals no
    group. *)
Theorem sigterm_sent_at_most_once :
  (count is_sigterm run_calls <= 1 /\
   signals_sent run_calls <= 2 /\
   Forall (fun e => match e with
                    | Killpg _ sig => sig = SIGTERM
                    | Kill pid sig =>
                        sig = SIGTERM \/
                        (sig = SIGKILL /\ procs run_final !! pid = None)
                    | _ => True
                    end)
          run_calls) /\
  (count is_sigterm serve_calls = 0 /\
   Forall (fun e => match e with
                    | Killpg _ _ => False
                    | Kill _ sig => sig = SIGKILL
                    | _ => True
                    end)
          serve_calls).
Proof.
  split; [apply run_sends_one_sigterm | apply serve_sends_no_sigterm].
Qed.

End Signals.

(** ** The further properties on concrete sessions *)

(** [west 9p-run --serve-dir /srv], QEMU exits with code 1. *)
Lemma teardown_once_after_consumer_witness :
  group_signals 4242
    (calls_of (NinePRun.do_run Scenario.run_serving)
       (Scenario.consumer_exits 1) Scenario.files) = 1 /\
  process_signals 4242
    (calls_of (NinePRun.do_run Scenario.run_serving)
       (Scenario.consumer_exits 1) Scenario.files) = 0.
Proof.
  refine (teardown_once_after_consumer
            Scenario.run_serving (Scenario.consumer_exits 1) Scenario.files
            "9pex /srv | 9pserve unix!/tmp/9p.sock" true true 4242 Scenario.qemu
            _ _).
  - vm_compute. find_in.
  - vm_compute. auto.
Defined.

(** [west 9p-run --serve-dir /srv], Ctrl+C while QEMU runs. *)
Lemma consumer_interrupt_handled_witness :
  run_ends (Scenario.world 0 Interrupted true false) Scenario.qemu = Interrupted /\
  result_of (NinePRun.do_run Scenario.run_serving)
    (Scenario.world 0 Interrupted true false) Scenario.files = Ok tt.
Proof.
  split; [reflexivity |].
  refine (proj1 (consumer_interrupt_handled
                   Scenario.run_serving (Scenario.world 0 Interrupted true false)
                   Scenario.files Scenario.qemu _ eq_refl)).
  vm_compute. auto.
Defined.

(** [west 9p-serve] in /srv, Ctrl+C while the pipeline runs. *)
Lemma foreground_interrupt_returns_witness :
  system_ends (Scenario.with_system Interrupted (Scenario.consumer_exits 0))
    "9pex /srv | 9pserve unix!/tmp/9p.sock" = Interrupted /\
  result_of (NinePServe.do_run (Defaults.serve "/srv"))
    (Scenario.with_system Interrupted (Scenario.consumer_exits 0))
    Scenario.files = Ok tt /\
  last (calls_of (NinePServe.do_run (Defaults.serve "/srv"))
          (Scenario.with_system Interrupted (Scenario.consumer_exits 0))
          Scenario.files)
    = Some (System "9pex /srv | 9pserve unix!/tmp/9p.sock").
Proof.
  split; [reflexivity |].
  pose proof (foreground_interrupt_returns
                (Defaults.serve "/srv")
                (Scenario.with_system Interrupted (Scenario.consumer_exits 0))
                Scenario.files "9pex /srv | 9pserve unix!/tmp/9p.sock"
                eq_refl) as H.
  destruct H as [H1 [H2 _]]; [vm_compute; find_in | reflexivity |].
  split; [exact H1 | exact H2].
Defined.

(** [west 9p-serve] in /srv with plan9port installed. *)
Lemma serve_checks_before_spawn_witness :
  In (System "9pex /srv | 9pserve unix!/tmp/9p.sock")
     (calls_of (NinePServe.do_run (Defaults.serve "/srv"))
        (Scenario.consumer_exits 0) Scenario.files) /\
  run_ends (Scenario.consumer_exits 0) ["which"; "9pserve"] = Exits 0.
Proof.
  assert (HP : In (System "9pex /srv | 9pserve unix!/tmp/9p.sock")
                  (calls_of (NinePServe.do_run (Defaults.serve "/srv"))
                     (Scenario.consumer_exits 0) Scenario.files))
    by (vm_compute; find_in).
  split; [exact HP |].
  exact (proj2 (proj2 (serve_checks_before_spawn
                         (Defaults.serve "/srv") (Scenario.consumer_exits 0)
                         Scenario.files _ HP eq_refl))).
Defined.

(** [west 9p-run] beside a running server, Ctrl+C while QEMU runs and
    does not end by itself. *)
Lemma reused_server_is_left_alone_witness :
  count is_server_call
    (calls_of (NinePRun.do_run Defaults.run)
       (Scenario.with_lingering_child 4243 (Scenario.world 0 Interrupted true false))
       Scenario.files_served) = 0 /\
  count is_sigterm
    (calls_of (NinePRun.do_run Defaults.run)
       (Scenario.with_lingering_child 4243 (Scenario.world 0 Interrupted true false))
       Scenario.files_served) = 0 /\
  fs (snd (NinePRun.do_run Defaults.run
             (Scenario.with_lingering_child 4243
                (Scenario.world 0 Interrupted true false))
             (init Scenario.files_served))) = Scenario.files_served.
Proof.
  pose proof (reused_server_is_left_alone
                Defaults.run
                (Scenario.with_lingering_child 4243
                   (Scenario.world 0 Interrupted true false))
                Scenario.files_served eq_refl) as [H1 [H2 [H3 _]]].
  split; [exact H1 |]. split; [exact H2 | exact H3].
Defined.

Lemma consumer_runs_iff_ready_witness :
  run_argvs
    (calls_of (NinePRun.do_run Defaults.run)
       (Scenario.consumer_exits 0) Scenario.files_served) = [Scenario.qemu] /\
  run_argvs
    (calls_of (NinePRun.do_run Defaults.run)
       (Scenario.consumer_exits 0) Scenario.files_unbuilt) = [].
Proof.
  split.
  - rewrite (consumer_runs_iff_ready
               Defaults.run (Scenario.consumer_exits 0) Scenario.files_served
               None eq_refl).
    vm_compute. reflexivity.
  - rewrite (consumer_runs_iff_ready
               Defaults.run (Scenario.consumer_exits 0) Scenario.files_unbuilt
               None eq_refl).
    vm_compute. reflexivity.
Defined.

(** [west 9p-run] before [west build]. *)
Lemma kernel_missing_dies_before_consumer_witness :
  result_of (NinePRun.do_run Defaults.run)
    (Scenario.consumer_exits 0) Scenario.files_unbuilt = Raise (SystemExit 1) /\
  subprocess_runs
    (calls_of (NinePRun.do_run Defaults.run)
       (Scenario.consumer_exits 0) Scenario.files_unbuilt) = 0.
Proof.
  assert (HS : fs (snd (at_launch Defaults.run (Scenario.consumer_exits 0)
                          Scenario.files_unbuilt))
               !! NinePRun.socket Defaults.run = Some Socket)
    by (vm_compute; reflexivity).
  assert (HK : fs (snd (at_launch Defaults.run (Scenario.consumer_exits 0)
                          Scenario.files_unbuilt))
               !! kernel_at Defaults.run (Scenario.consumer_exits 0) = None)
    by (vm_compute; reflexivity).
  pose proof (kernel_missing_dies_before_consumer
                Defaults.run (Scenario.consumer_exits 0) Scenario.files_unbuilt
                None Socket eq_refl HS HK) as [H1 [_ H3]].
  split; [exact H1 | exact H3].
Defined.

(** [west 9p-run --serve-dir /nowhere] beside a running server. *)
Lemma serve_dir_not_found_dies_untouched_witness :
  result_of (NinePRun.do_run (set_serve_dir (Some "/nowhere") Defaults.run))
    (Scenario.consumer_exits 0) Scenario.files_served = Raise (SystemExit 1) /\
  fs (snd (NinePRun.do_run (set_serve_dir (Some "/nowhere") Defaults.run)
             (Scenario.consumer_exits 0) (init Scenario.files_served)))
    = Scenario.files_served.
Proof.
  assert (HD : Scenario.files_served !! "/nowhere" <> Some Dir)
    by (vm_compute; discriminate).
  pose proof (serve_dir_not_found_dies_untouched
                (set_serve_dir (Some "/nowhere") Defaults.run)
                (Scenario.consumer_exits 0) Scenario.files_served
                eq_refl HD) as [H1 [_ H3]].
  split; [exact H1 | exact H3].
Defined.

(** [west 9p-run --serve-dir /srv] with a stale socket and a server that
    does not come up. *)
Lemma auto_start_checks_a_fresh_socket_witness :
  Scenario.files_served !! "/tmp/9p.sock" = Some Socket /\
  result_of (NinePRun.do_run Scenario.run_serving)
    Scenario.never_binds Scenario.files_served = Raise (SystemExit 1).
Proof.
  split; [vm_compute; reflexivity |].
  pose proof (auto_start_checks_a_fresh_socket
                Scenario.run_serving Scenario.never_binds Scenario.files_served
                4242) as H.
  destruct H as [_ [_ H]]; [vm_compute; reflexivity |].
  apply H. vm_compute. reflexivity.
Defined.

(** [west 9p-run --serve-dir /srv] without QEMU installed. *)
Lemma consumer_spawn_failure_propagates_witness :
  result_of (NinePRun.do_run Scenario.run_serving)
    (Scenario.world 0 SpawnFails true false) Scenario.files
    = Raise (OSError "FileNotFoundError") /\
  signals_sent
    (calls_of (NinePRun.do_run Scenario.run_serving)
       (Scenario.world 0 SpawnFails true false) Scenario.files) = 1.
Proof.
  pose proof (consumer_spawn_failure_propagates
                Scenario.run_serving (Scenario.world 0 SpawnFails true false)
                Scenario.files Scenario.qemu) as H.
  destruct H as [H1 [H2 _]]; [vm_compute; auto | reflexivity |].
  split; [exact H1 |]. rewrite H2. vm_compute. reflexivity.
Defined.

Lemma pipeline_spawn_failure_aborts_witness :
  result_of (NinePRun.do_run Scenario.run_serving)
    (Scenario.without_popen (Scenario.consumer_exits 0)) Scenario.files_served
    = Raise (OSError "Popen") /\
  subprocess_runs
    (calls_of (NinePRun.do_run Scenario.run_serving)
       (Scenario.without_popen (Scenario.consumer_exits 0))
       Scenario.files_served) = 0.
Proof.
  assert (HD : Scenario.files_served !! "/srv" = Some Dir)
    by (vm_compute; reflexivity).
  assert (HK : clearable (Scenario.without_popen (Scenario.consumer_exits 0))
                 Scenario.files_served "/tmp/9p.sock" = true)
    by (vm_compute; reflexivity).
  pose proof (pipeline_spawn_failure_aborts
                Scenario.run_serving
                (Scenario.without_popen (Scenario.consumer_exits 0))
                Scenario.files_served eq_refl HD HK eq_refl)
    as [H1 [_ [H3 _]]].
  split; [exact H1 | exact H3].
Defined.

Lemma socket_directory_stops_auto_start_witness :
  Scenario.files_socket_dir !! "/tmp/9p.sock" = Some Dir /\
  count takes_charge
    (calls_of (NinePRun.do_run Scenario.run_serving)
       (Scenario.consumer_exits 0) Scenario.files_socket_dir) = 0.
Proof.
  assert (HD : Scenario.files_socket_dir !! "/srv" = Some Dir)
    by (vm_compute; reflexivity).
  assert (HK : Scenario.files_socket_dir !! "/tmp/9p.sock" = Some Dir)
    by (vm_compute; reflexivity).
  split; [exact HK |].
  exact (proj1 (proj2 (socket_directory_stops_auto_start
                         Scenario.run_serving (Scenario.consumer_exits 0)
                         Scenario.files_socket_dir eq_refl HD HK))).
Defined.

(** [west 9p-serve] in a directory that is gone. *)
Lemma serve_directory_missing_witness :
  result_of (NinePServe.do_run (Defaults.serve "/nowhere"))
    (Scenario.consumer_exits 0) Scenario.files = Raise (SystemExit 1).
Proof.
  assert (HD : Scenario.files !! "/nowhere" <> Some Dir)
    by (vm_compute; discriminate).
  exact (proj1 (serve_directory_missing
                  (Defaults.serve "/nowhere") (Scenario.consumer_exits 0)
                  Scenario.files HD)).
Defined.

(** [west 9p-serve] in /srv without plan9port. *)
Lemma serve_exporter_missing_witness :
  run_argvs
    (calls_of (NinePServe.do_run (Defaults.serve "/srv"))
       Scenario.no_tools Scenario.files) = [["which"; "9pex"]].
Proof.
  assert (HD : Scenario.files !! "/srv" = Some Dir) by (vm_compute; reflexivity).
  assert (Hc : 1%Z <> 0%Z) by discriminate.
  exact (proj1 (proj2 (proj2 (serve_exporter_missing
                                (Defaults.serve "/srv") Scenario.no_tools
                                Scenario.files 1%Z HD eq_refl Hc)))).
Defined.

Lemma serve_server_missing_witness :
  result_of (NinePServe.do_run (Defaults.serve "/srv"))
    Scenario.no_9pserve Scenario.files = Raise (SystemExit 1).
Proof.
  assert (HD : Scenario.files !! "/srv" = Some Dir) by (vm_compute; reflexivity).
  assert (Hc : 1%Z <> 0%Z) by discriminate.
  exact (proj1 (serve_server_missing
                  (Defaults.serve "/srv") Scenario.no_9pserve
                  Scenario.files 1%Z HD eq_refl eq_refl Hc)).
Defined.

(** [west 9p-serve -p 5640 /srv] beside a server on the Unix socket. *)
Lemma tcp_mode_leaves_socket_alone_witness :
  truthy_int (NinePServe.port (Scenario.serve (Some 5640%Z) false)) = true /\
  count is_unlink
    (calls_of (NinePServe.do_run (Scenario.serve (Some 5640%Z) false))
       (Scenario.consumer_exits 0) Scenario.files_served) = 0.
Proof.
  split; [reflexivity |].
  exact (proj1 (tcp_mode_leaves_socket_alone
                  (Scenario.serve (Some 5640%Z) false)
                  (Scenario.consumer_exits 0) Scenario.files_served eq_refl)).
Defined.

(** [west 9p-serve] in /srv with a socket left behind. *)
Lemma unix_mode_clears_stale_socket_witness :
  filter_unlinks
    (calls_of (NinePServe.do_run (Defaults.serve "/srv"))
       (Scenario.consumer_exits 0) Scenario.files_served) = ["/tmp/9p.sock"].
Proof.
  assert (HD : Scenario.files_served !! "/srv" = Some Dir)
    by (vm_compute; reflexivity).
  assert (HK : clearable (Scenario.consumer_exits 0)
                 Scenario.files_served "/tmp/9p.sock" = true)
    by (vm_compute; reflexivity).
  rewrite (proj1 (unix_mode_clears_stale_socket
                    (Defaults.serve "/srv") (Scenario.consumer_exits 0)
                    Scenario.files_served eq_refl HD eq_refl eq_refl HK)).
  vm_compute. reflexivity.
Defined.

Lemma socket_directory_stops_serve_witness :
  count takes_charge
    (calls_of (NinePServe.do_run (Defaults.serve "/srv"))
       (Scenario.consumer_exits 0) Scenario.files_socket_dir) = 0.
Proof.
  assert (HD : Scenario.files_socket_dir !! "/srv" = Some Dir)
    by (vm_compute; reflexivity).
  assert (HK : Scenario.files_socket_dir !! "/tmp/9p.sock" = Some Dir)
    by (vm_compute; reflexivity).
  exact (proj2 (socket_directory_stops_serve
                  (Defaults.serve "/srv") (Scenario.consumer_exits 0)
                  Scenario.files_socket_dir eq_refl HD eq_refl eq_refl HK)).
Defined.

(** [west 9p-serve -d /srv] when the shell returns status 127. *)
Lemma pipeline_status_ignored_witness :
  system_ends (Scenario.with_system (Exits 127) (Scenario.consumer_exits 0))
    "9pex /srv | 9pserve unix!/tmp/9p.sock &" = Exits 127 /\
  result_of (NinePServe.do_run (Scenario.serve None true))
    (Scenario.with_system (Exits 127) (Scenario.consumer_exits 0))
    Scenario.files = Ok tt.
Proof.
  split; [reflexivity |].
  refine (proj1 (pipeline_status_ignored
                   (Scenario.serve None true)
                   (Scenario.with_system (Exits 127) (Scenario.consumer_exits 0))
                   Scenario.files
                   "9pex /srv | 9pserve unix!/tmp/9p.sock &" 127%Z
                   _ eq_refl eq_refl)).
  vm_compute. find_in.
Defined.
